(** * SpamDetector: a multinomial naive-Bayes spam classifier

    A shallow embedding of [SpamDetector.py] and the properties of its
    trainer, predictor, evaluator, correlation filter and fold driver.

    Number model.  The program computes with IEEE doubles.  Finite values
    are idealised as real numbers (no rounding, no overflow); the special
    values that the program can reach through [np.log] and through the
    element-wise division of two pandas Series are kept explicit in
    [num].  Python's [int / int] raises [ZeroDivisionError] on a zero
    divisor and is modelled in the [result] monad.  Theorems over this
    model say which formula the program evaluates and what its exact
    value satisfies.  Where rounding, underflow or overflow of the
    doubles changes a property, [train] is also given in binary64
    arithmetic ([train_double]) and evaluated on concrete folds.

    Table model.  A pandas DataFrame is an ordered collection of named
    columns; the row index plays no role in the program, so a frame is a
    list of (name, values) pairs and a row is a position in the value
    lists. *)

From Stdlib Require Import Floats.
From Stdlib Require Import ZArith Reals Lra Lia List String Bool Arith PeanoNat.
Import ListNotations.

Open Scope string_scope.
Open Scope list_scope.
Open Scope R_scope.

(** ** Errors *)

Inductive exn : Type :=
| ZeroDivisionError
| KeyError (key : string)
| ValueError.

Inductive result (A : Type) : Type :=
| Ok (a : A)
| Raise (e : exn).

Arguments Ok {A} a.
Arguments Raise {A} e.

Definition bind {A B : Type} (m : result A) (k : A -> result B) : result B :=
  match m with
  | Ok a => k a
  | Raise e => Raise e
  end.

Notation "x <- m ;; k" := (bind m (fun x => k))
  (at level 61, m at next level, right associativity).
Notation "' p <- m ;; k" := (bind m (fun p => k))
  (at level 61, p pattern, m at next level, right associativity).

(** ** Numbers *)

(** A double: a finite value, an infinity or not-a-number. *)
Inductive num : Type :=
| Fin (r : R)
| PInf
| NInf
| NaN.

Definition Req_bool (x y : R) : bool :=
  if Req_dec_T x y then true else false.

Definition Rgt_bool (x y : R) : bool :=
  if Rgt_dec x y then true else false.

(** Python [a / b] on two [int]s (here: two lengths). *)
Definition py_truediv (a b : nat) : result R :=
  match b with
  | O => Raise ZeroDivisionError
  | S _ => Ok (INR a / INR b)
  end.

(** numpy [a / b] on two finite doubles: never raises. *)
Definition np_divide (a b : R) : num :=
  if Req_dec_T b 0 then
    if Req_dec_T a 0 then NaN
    else if Rgt_dec a 0 then PInf else NInf
  else Fin (a / b).

(** [np.log]. *)
Definition np_log (x : num) : num :=
  match x with
  | Fin r =>
      if Rgt_dec r 0 then Fin (ln r)
      else if Req_dec_T r 0 then NInf else NaN
  | PInf => PInf
  | NInf => NaN
  | NaN => NaN
  end.

(** [x * y] for a finite [x] (a frequency) and a double [y]. *)
Definition np_multiply (x : R) (y : num) : num :=
  match y with
  | Fin r => Fin (x * r)
  | PInf =>
      if Rgt_dec x 0 then PInf else if Req_dec_T x 0 then NaN else NInf
  | NInf =>
      if Rgt_dec x 0 then NInf else if Req_dec_T x 0 then NaN else PInf
  | NaN => NaN
  end.

Definition np_add (x y : num) : num :=
  match x, y with
  | NaN, _ | _, NaN => NaN
  | Fin a, Fin b => Fin (a + b)
  | PInf, NInf | NInf, PInf => NaN
  | PInf, _ | _, PInf => PInf
  | NInf, _ | _, NInf => NInf
  end.

(** [x > y] on doubles; every comparison with NaN is false. *)
Definition np_greater (x y : num) : bool :=
  match x, y with
  | NaN, _ | _, NaN => false
  | Fin a, Fin b => Rgt_bool a b
  | PInf, PInf => false
  | PInf, _ => true
  | _, PInf => false
  | NInf, _ => false
  | Fin _, NInf => true
  end.

Fixpoint Rsum (l : list R) : R :=
  match l with
  | [] => 0
  | x :: t => x + Rsum t
  end.

(** ** Series and frames *)

(** A pandas Series: index labels with their values, in order. *)
Definition Series (A : Type) : Type := list (string * A).

Fixpoint series_get {A : Type} (key : string) (s : Series A) : option A :=
  match s with
  | [] => None
  | (k, v) :: t => if String.eqb key k then Some v else series_get key t
  end.

Definition labels {A : Type} (s : Series A) : list string := map fst s.
Definition values {A : Type} (s : Series A) : list A := map snd s.

(** A DataFrame: its columns in order, each with its values by row. *)
Definition DataFrame : Type := Series (list R).

Definition columns (df : DataFrame) : list string := labels df.

(** [len(df)]. *)
Definition len (df : DataFrame) : nat :=
  match df with
  | [] => O
  | (_, v) :: _ => List.length v
  end.

(** Every column has one value per row. *)
Definition rectangular (df : DataFrame) : Prop :=
  forall c, In c df -> List.length (snd c) = len df.

(** [df[name]]. *)
Definition getitem (df : DataFrame) (name : string) : result (list R) :=
  match series_get name df with
  | Some v => Ok v
  | None => Raise (KeyError name)
  end.

(** [df[start:stop]], a slice of the rows. *)
Definition slice {A : Type} (start stop : nat) (l : list A) : list A :=
  firstn (stop - start) (skipn start l).

Definition slice_rows (start stop : nat) (df : DataFrame) : DataFrame :=
  map (fun c => (fst c, slice start stop (snd c))) df.

(** [pd.concat] of frames that share their columns. *)
Definition concat_rows (a b : DataFrame) : DataFrame :=
  map (fun '((name, v), (_, w)) => (name, v ++ w)) (combine a b).

(** Boolean-mask row selection, [df[mask]]. *)
Fixpoint mask_select {A : Type} (mask : list bool) (l : list A) : list A :=
  match mask, l with
  | b :: m, x :: t => if b then x :: mask_select m t else mask_select m t
  | _, _ => []
  end.

Definition select_rows (mask : list bool) (df : DataFrame) : DataFrame :=
  map (fun c => (fst c, mask_select mask (snd c))) df.

(** ** Cross-validation folds (the script's fold loop) *)

Section Folds.
Local Open Scope nat_scope.

(** One pass of the body of [for i in range(5)]: the state is the list
    [folds] built so far and [starting_i]. *)
Definition fold_step (training_data : DataFrame) (fold_size : nat)
    (st : list DataFrame * nat) (i : nat) : list DataFrame * nat :=
  let '(folds, starting_i) := st in
  let ending_i := Nat.min (starting_i + fold_size) (len training_data) in
  let fold := slice_rows starting_i ending_i training_data in
  (folds ++ [fold], ending_i).

Definition folds (training_data : DataFrame) : list DataFrame :=
  let fold_size := len training_data / 5 in
  fst (fold_left (fold_step training_data fold_size) (seq 0 5) ([], 0)).

(** The frames of a list, one after the other. *)
Definition concat_frames (l : list DataFrame) : DataFrame :=
  match l with
  | [] => []
  | f :: t => fold_left concat_rows t f
  end.

(** A training set of 23 rows with the single column [spam]. *)
Definition training_23 : DataFrame :=
  [("spam", [0; 1; 0; 1; 0; 1; 0; 1; 0; 1; 0; 1; 0; 1; 0; 1; 0; 1; 0; 1;
             0; 1; 1]%R)].

End Folds.

(** ** Trainer *)

(** [df[features].sum()]: the sum of each selected column, as a Series
    indexed by the column names.  Column names of a Dataset are distinct,
    so selection by name yields one column per name. *)
Definition column_sums (df : DataFrame) (features : list string) : Series R :=
  map (fun f => (f, match series_get f df with
                    | Some v => Rsum v
                    | None => 0
                    end)) features.

(** [(word_sum + laplace_alpha) / (total + laplace_alpha * n)], element-wise
    on a Series. *)
Definition smooth (word_sum : Series R) (laplace_alpha total : R) (n : nat)
  : Series num :=
  map (fun '(f, s) =>
         (f, np_divide (s + laplace_alpha) (total + laplace_alpha * INR n)))
      word_sum.

Definition train (train_data : DataFrame) (laplace_alpha : R)
  : result (R * R * Series num * Series num) :=
  label <- getitem train_data "spam" ;;
  let spam := select_rows (map (fun v => Req_bool v 1) label) train_data in
  let non_spam := select_rows (map (fun v => Req_bool v 0) label) train_data in
  prior_spam <- py_truediv (len spam) (len train_data) ;;
  prior_non_spam <- py_truediv (len non_spam) (len train_data) ;;
  let features := removelast (columns train_data) in
  let spam_word_sum := column_sums spam features in
  let non_spam_word_sum := column_sums non_spam features in
  let total_spam_word_sum := Rsum (values spam_word_sum) in
  let total_non_spam_word_sum := Rsum (values non_spam_word_sum) in
  let words_spam_prob :=
    smooth spam_word_sum laplace_alpha total_spam_word_sum
           (List.length features) in
  let words_non_spam_prob :=
    smooth non_spam_word_sum laplace_alpha total_non_spam_word_sum
           (List.length features) in
  Ok (prior_spam, prior_non_spam, words_spam_prob, words_non_spam_prob).

(** ** Predictor *)

(** A Python dict with string keys: its items in insertion order. *)
Definition dict : Type := list (string * R).

Fixpoint dict_set (k : string) (v : R) (d : dict) : dict :=
  match d with
  | [] => [(k, v)]
  | (k', v') :: t =>
      if String.eqb k k' then (k', v) :: t else (k', v') :: dict_set k v t
  end.

(** One pass of the body of [for word, freq in email.items()]: the state
    is ([spam_prob], [non_spam_prob]). *)
Definition predict_step (words_spam_prob words_non_spam_prob : Series num)
    (st : num * num) (item : string * R) : num * num :=
  let '(spam_prob, non_spam_prob) := st in
  let '(word, freq) := item in
  let spam_prob :=
    match series_get word words_spam_prob with
    | Some p => np_add spam_prob (np_multiply freq (np_log p))
    | None => spam_prob
    end in
  let non_spam_prob :=
    match series_get word words_non_spam_prob with
    | Some p => np_add non_spam_prob (np_multiply freq (np_log p))
    | None => non_spam_prob
    end in
  (spam_prob, non_spam_prob).

Definition predict (email : dict) (prior_spam prior_non_spam : R)
    (words_spam_prob words_non_spam_prob : Series num) : bool :=
  let spam_prob := np_log (Fin prior_spam) in
  let non_spam_prob := np_log (Fin prior_non_spam) in
  let '(spam_prob, non_spam_prob) :=
    fold_left (predict_step words_spam_prob words_non_spam_prob)
              email (spam_prob, non_spam_prob) in
  np_greater spam_prob non_spam_prob.

(** The score of one class as the specification writes it: the log prior
    plus [value * log P] over the items whose word the class's mapping
    knows, in item order. *)
Definition score (prior : R) (probs : Series num) (email : dict) : num :=
  fold_left np_add
    (flat_map (fun '(word, freq) =>
                 match series_get word probs with
                 | Some p => [np_multiply freq (np_log p)]
                 | None => []
                 end) email)
    (np_log (Fin prior)).

(** ** Evaluator *)

(** [row.drop(key)] on a Series. *)
Definition series_drop {A : Type} (key : string) (row : Series A)
  : result (Series A) :=
  if existsb (String.eqb key) (labels row)
  then Ok (filter (fun c => negb (String.eqb key (fst c))) row)
  else Raise (KeyError key).

(** [row[key]] on a Series. *)
Definition series_getitem {A : Type} (row : Series A) (key : string)
  : result A :=
  match series_get key row with
  | Some v => Ok v
  | None => Raise (KeyError key)
  end.

(** [row.to_dict()]. *)
Definition to_dict (row : Series R) : dict :=
  fold_left (fun d c => dict_set (fst c) (snd c) d) row [].

(** The rows of [df.iterrows()], each a Series indexed by the columns. *)
Definition iterrows (df : DataFrame) : list (Series R) :=
  map (fun i => map (fun c => (fst c, nth i (snd c) 0)) df)
      (seq 0 (len df)).

(** A Python bool compared with a number counts as 1 or 0. *)
Definition bool_to_R (b : bool) : R := if b then 1 else 0.

Record tally : Type := mkTally {
  correct : nat;
  false_positive : nat;
  true_positive : nat;
  predictions : list bool;
  spam_labels : list R
}.

Fixpoint foldM {A B : Type} (f : A -> B -> result A) (l : list B) (a : A)
  : result A :=
  match l with
  | [] => Ok a
  | x :: t => a' <- f a x ;; foldM f t a'
  end.

Section Evaluator.

(** sklearn's [roc_auc_score], an external routine: it returns a number
    or raises. *)
Variable roc_auc_score : list R -> list bool -> result R.

Variables (prior_spam prior_non_spam : R).
Variables (words_spam_prob words_non_spam_prob : Series num).

(** One pass of the body of [for _, row in test_data.iterrows()]. *)
Definition test_step (st : tally) (row : Series R) : result tally :=
  features <- series_drop "spam" row ;;
  let email := to_dict features in
  let prediction :=
    predict email prior_spam prior_non_spam
            words_spam_prob words_non_spam_prob in
  let predictions := predictions st ++ [prediction] in
  spam_label <- series_getitem row "spam" ;;
  let spam_labels := spam_labels st ++ [spam_label] in
  if Req_bool (bool_to_R prediction) spam_label then
    Ok (mkTally (correct st + 1) (false_positive st)
                (if prediction then true_positive st + 1
                 else true_positive st)
                predictions spam_labels)
  else
    Ok (mkTally (correct st)
                (if prediction then false_positive st + 1
                 else false_positive st)
                (true_positive st)
                predictions spam_labels).

Definition test (test_data : DataFrame) : result (R * R * R * R) :=
  let total := len test_data in
  st <- foldM test_step (iterrows test_data) (mkTally 0 0 0 [] []) ;;
  auc <- roc_auc_score (spam_labels st) (predictions st) ;;
  acc <- py_truediv (correct st) total ;;
  fp_rate <- py_truediv (false_positive st) total ;;
  tp_rate <- py_truediv (true_positive st) total ;;
  Ok (acc, fp_rate, tp_rate, auc).

(** The quantities of the evaluator's contract, row by row. *)
Definition row_prediction (row : Series R) : bool :=
  predict (to_dict (filter (fun c => negb (String.eqb "spam" (fst c))) row))
          prior_spam prior_non_spam words_spam_prob words_non_spam_prob.

Definition row_label (row : Series R) : R :=
  match series_get "spam" row with
  | Some l => l
  | None => 0
  end.

Definition count_rows (p : Series R -> bool) (df : DataFrame) : nat :=
  List.length (filter p (iterrows df)).

Definition is_correct (row : Series R) : bool :=
  Req_bool (bool_to_R (row_prediction row)) (row_label row).

Definition is_true_positive (row : Series R) : bool :=
  row_prediction row && Req_bool (row_label row) 1.

Definition is_false_positive (row : Series R) : bool :=
  row_prediction row && Req_bool (row_label row) 0.

End Evaluator.


(** ** Correlation filter *)

Definition mean (x : list R) : R := Rsum x / INR (List.length x).

(** Sum of squared deviations from the mean. *)
Definition ssqdm (x : list R) : R :=
  Rsum (map (fun v => (v - mean x) * (v - mean x)) x).

(** Sum of the products of the paired deviations. *)
Definition covxy (x y : list R) : R :=
  Rsum (map (fun '(a, b) => (a - mean x) * (b - mean y)) (combine x y)).

(** One entry of pandas' [DataFrame.corr()] (Pearson): the co-deviation
    over the root of the product of the squared deviations, and NaN
    ([None]) where that divisor is zero, that is where a column has zero
    variance or the frame has no rows. *)
Definition pearson (x y : list R) : option R :=
  let divisor := sqrt (ssqdm x * ssqdm y) in
  if Req_dec_T divisor 0 then None else Some (covxy x y / divisor).

(** [data.corr().abs()]: one row and one column per column of [data],
    the label column included. *)
Definition corr_abs (data : DataFrame) : list (list (option R)) :=
  map (fun ci =>
         map (fun cj => option_map Rabs (pearson (snd ci) (snd cj))) data)
      data.

Definition iloc (matrix : list (list (option R))) (i j : nat) : option R :=
  nth j (nth i matrix []) None.

(** [v > threshold] on a matrix entry; NaN compares false. *)
Definition exceeds (v : option R) (threshold : R) : bool :=
  match v with
  | Some r => Rgt_bool r threshold
  | None => false
  end.

(** A Python set of column names. *)
Definition set_add (name : string) (s : list string) : list string :=
  if existsb (String.eqb name) s then s else s ++ [name].

Definition set_mem (name : string) (s : list string) : bool :=
  existsb (String.eqb name) s.

(** The two nested loops that collect [correlated_features]. *)
Definition correlated_features (data : DataFrame) (threshold : R)
  : list string :=
  let matrix := corr_abs data in
  fold_left
    (fun acc i =>
       fold_left
         (fun acc j =>
            if exceeds (iloc matrix i j) threshold
            then set_add (nth i (columns data) "") acc
            else acc)
         (seq 0 i) acc)
    (seq 0 (List.length (columns data))) [].

(** [data.drop(columns=names)]; every name collected by the filter is a
    column of [data], so the call never raises. *)
Definition drop_columns (names : list string) (data : DataFrame) : DataFrame :=
  filter (fun c => negb (set_mem (fst c) names)) data.

(** The unused [mask] of the source is left out. *)
Definition remove_correlated (data : DataFrame) (threshold : R) : DataFrame :=
  let correlated_features := correlated_features data threshold in
  let filtered := drop_columns correlated_features data in
  filtered.

(** ** Driver *)

Section Driver.

Variable roc_auc_score : list R -> list bool -> result R.

(** One pass of the reporting loop: train on the fold, evaluate on the
    fixed test set. *)
Definition fold_report (fold testing_data : DataFrame) (laplace_alpha : R)
  : result (R * R * R * R) :=
  '(prior_spam, prior_non_spam, word_given_spam_probs,
    word_given_non_spam_probs) <- train fold laplace_alpha ;;
  test roc_auc_score prior_spam prior_non_spam
       word_given_spam_probs word_given_non_spam_probs testing_data.

(** The reporting loop over the folds.  The script catches no exception:
    the loop prints the reports of the folds it has finished and stops at
    the first fold that raises.  The result is the printed reports and
    the exception that ended the run, if any. *)
Fixpoint report_folds (folds : list DataFrame) (testing_data : DataFrame)
    (laplace_alpha : R) : list (R * R * R * R) * option exn :=
  match folds with
  | [] => ([], None)
  | fold :: rest =>
      match fold_report fold testing_data laplace_alpha with
      | Raise e => ([], Some e)
      | Ok r =>
          let '(printed, status) :=
            report_folds rest testing_data laplace_alpha in
          (r :: printed, status)
      end
  end.

End Driver.

(** ** Datasets *)

(** The feature columns: every column but the last. *)
Definition features_of (df : DataFrame) : DataFrame := removelast df.

(** The Dataset of the data model: a rectangular frame with distinct
    column names whose last column is the label [spam]. *)
Definition is_dataset (df : DataFrame) : Prop :=
  rectangular df /\ NoDup (columns df) /\
  exists label, df = features_of df ++ [("spam", label)].

(** Feature values are frequencies and counts. *)
Definition nonneg_features (df : DataFrame) : Prop :=
  forall c v, In c (features_of df) -> In v (snd c) -> 0 <= v.

(** The quantities of the trainer's contract, in the specification's
    words.  The rows (positions) of class [c], given the label column. *)
Definition class_rows (label : list R) (c : R) : list nat :=
  filter (fun i => Req_bool (nth i label 0) c) (seq 0 (List.length label)).

(** The sum of a column's values over the rows of a class. *)
Definition class_sum (label : list R) (c : R) (v : list R) : R :=
  Rsum (map (fun i => nth i v 0) (class_rows label c)).

(** The sum of all features' values over the rows of a class. *)
Definition class_total (label : list R) (c : R) (feats : DataFrame) : R :=
  Rsum (map (fun f => class_sum label c (snd f)) feats).

(** The conditional probabilities of class [c] as the specification
    writes them, one entry per feature column. *)
Definition smoothed (label : list R) (c : R) (feats : DataFrame) (alpha : R)
  : Series num :=
  map (fun f =>
         (fst f,
          np_divide (class_sum label c (snd f) + alpha)
                    (class_total label c feats
                     + alpha * INR (List.length feats))))
      feats.

(** What [train] returns for one word: its conditional probability
    given the class ([true]: spam, [false]: non-spam), if training
    succeeds and the word is a feature. *)
Definition word_prob (train_data : DataFrame) (laplace_alpha : R)
    (spam : bool) (word : string) : option num :=
  match train train_data laplace_alpha with
  | Ok (_, _, words_spam_prob, words_non_spam_prob) =>
      series_get word (if spam then words_spam_prob else words_non_spam_prob)
  | Raise _ => None
  end.

(** The label value of a class. *)
Definition class_label (spam : bool) : R := if spam then 1 else 0.

(** A toy Dataset: two features and the label, three rows. *)
Definition toy : DataFrame :=
  [("free", [2; 0; 1]); ("money", [1; 0; 3]); ("spam", [1; 0; 1])].

(** Two columns correlate above the threshold: the entry of
    [data.corr().abs()] for them is a number greater than [threshold]. *)
Definition correlated (x y : list R) (threshold : R) : bool :=
  exceeds (option_map Rabs (pearson x y)) threshold.


(** Two identical features that vary, and a constant label. *)
Definition twins : DataFrame :=
  [("make", [0; 1]); ("address", [0; 1]); ("spam", [0; 0])].

(** A feature that equals the label. *)
Definition label_twin : DataFrame :=
  [("free", [0; 1]); ("spam", [0; 1])].

(** A fold without rows and a fold whose rows are all spam. *)
Definition empty_fold : DataFrame :=
  [("free", []); ("spam", [])].

Definition all_spam_fold : DataFrame :=
  [("free", [2; 1]); ("spam", [1; 1])].

(** A Dataset in which [money] never occurs in a spam row. *)
Definition no_money_in_spam : DataFrame :=
  [("free", [2; 0; 1]); ("money", [0; 3; 0]); ("spam", [1; 0; 1])].

(** ** The script: split, folds, reports *)

(** [df[start:]], the rows from [start] on. *)
Definition rows_from (start : nat) (df : DataFrame) : DataFrame :=
  map (fun c => (fst c, skipn start (snd c))) df.

(** [int(0.8 * len(data))]: the product is a non-negative real, which
    [int] truncates to its integer part. *)
Definition train_size (data : DataFrame) : nat :=
  Z.to_nat (Int_part (8 / 10 * INR (len data))).

Section Script.

Variable roc_auc_score : list R -> list bool -> result R.

(** [data.sample(frac=1, random_state=...).reset_index(drop=True)], the
    seeded shuffle of the rows, an external routine. *)
Variable sample : DataFrame -> DataFrame.

(** The script from the loaded table on: filter, shuffle, split, cut the
    folds, train and evaluate each.  The result is what [report_folds]
    yields: the printed reports and the exception that ended the run. *)
Definition script (csv : DataFrame) : list (R * R * R * R) * option exn :=
  let data := remove_correlated csv (608 / 1000) in
  let data := sample data in
  let laplace_alpha := 9 / 100 in
  let train_size := train_size data in
  let training_data := slice_rows 0 train_size data in
  let testing_data := rows_from train_size data in
  report_folds roc_auc_score (folds training_data) testing_data
               laplace_alpha.

End Script.

(** The terms that [score] adds to the log prior. *)
Definition score_terms (probs : Series num) (email : dict) : list num :=
  flat_map (fun '(word, freq) =>
              match series_get word probs with
              | Some p => [np_multiply freq (np_log p)]
              | None => []
              end) email.

(** ** The trainer in IEEE doubles *)

(** [train] once more, on a frame of binary64 values and with numpy's
    arithmetic (round to nearest, ties to even) in place of the operations
    on real numbers: the same statements in the same order.  Sums are taken
    left to right; on the frames used below every addend is a small
    integer, so each sum is exact in whatever order it is taken. *)
Definition sum_double (l : list float) : float :=
  fold_left PrimFloat.add l 0%float.

(** A Python int as a double (exact below 2^53). *)
Definition int_double (n : nat) : float :=
  PrimFloat.of_uint63 (Uint63.of_Z (Z.of_nat n)).

Definition len_double (df : Series (list float)) : nat :=
  match df with
  | [] => O
  | (_, v) :: _ => List.length v
  end.

(** [a / b] on Python ints: the correctly rounded quotient, which for ints
    below 2^53 is the quotient of the two doubles. *)
Definition py_truediv_double (a b : nat) : result float :=
  match b with
  | O => Raise ZeroDivisionError
  | _ => Ok (PrimFloat.div (int_double a) (int_double b))
  end.

Definition select_rows_double (mask : list bool) (df : Series (list float))
  : Series (list float) :=
  map (fun c => (fst c, mask_select mask (snd c))) df.

Definition column_sums_double (df : Series (list float))
    (features : list string) : Series float :=
  map (fun f => (f, match series_get f df with
                    | Some v => sum_double v
                    | None => 0%float
                    end)) features.

Definition smooth_double (word_sum : Series float)
    (laplace_alpha total : float) (n : nat) : Series float :=
  map (fun '(f, s) =>
         (f, PrimFloat.div
               (PrimFloat.add s laplace_alpha)
               (PrimFloat.add total
                  (PrimFloat.mul laplace_alpha (int_double n)))))
      word_sum.

Definition train_double (train_data : Series (list float))
    (laplace_alpha : float)
  : result (float * float * Series float * Series float) :=
  label <- match series_get "spam" train_data with
           | Some v => Ok v
           | None => Raise (KeyError "spam")
           end ;;
  let spam :=
    select_rows_double (map (fun v => PrimFloat.eqb v 1%float) label)
                       train_data in
  let non_spam :=
    select_rows_double (map (fun v => PrimFloat.eqb v 0%float) label)
                       train_data in
  prior_spam <- py_truediv_double (len_double spam) (len_double train_data) ;;
  prior_non_spam <-
    py_truediv_double (len_double non_spam) (len_double train_data) ;;
  let features := removelast (labels train_data) in
  let spam_word_sum := column_sums_double spam features in
  let non_spam_word_sum := column_sums_double non_spam features in
  let total_spam_word_sum := sum_double (values spam_word_sum) in
  let total_non_spam_word_sum := sum_double (values non_spam_word_sum) in
  let words_spam_prob :=
    smooth_double spam_word_sum laplace_alpha total_spam_word_sum
                  (List.length features) in
  let words_non_spam_prob :=
    smooth_double non_spam_word_sum laplace_alpha total_non_spam_word_sum
                  (List.length features) in
  Ok (prior_spam, prior_non_spam, words_spam_prob, words_non_spam_prob).

(** A fold of two rows, one of each class, whose spam row never has the
    word [free]. *)
Definition no_free_in_spam : Series (list float) :=
  [("free", [0; 1]%float); ("money", [10; 1]%float);
   ("spam", [1; 0]%float)].

(** A fold of two rows, one of each class, with three features. *)
Definition three_words : Series (list float) :=
  [("free", [2; 1]%float); ("money", [2; 1]%float);
   ("offer", [3; 1]%float); ("spam", [1; 0]%float)].

(** ** Scores as real numbers *)




(** ** The evaluator's contract, row index by row index *)

(** The feature values of row [i]: one item per column other than
    [spam], in column order. *)
Definition email_at (df : DataFrame) (i : nat) : dict :=
  map (fun c => (fst c, nth i (snd c) 0))
      (filter (fun c => if string_dec (fst c) "spam" then false else true)
              df).

(** How many of the rows [0 .. n-1] satisfy [p]. *)
Definition count_index (p : nat -> bool) (n : nat) : nat :=
  List.length (filter p (seq 0 n)).

(** sklearn's [roc_auc_score] on hard 0/1 predictions, modelled from the
    library (in the versions that reject one-class labels): with both
    classes among the labels the area under the three-point curve is
    [(TPR + 1 - FPR) / 2]; with one class only it raises [ValueError]. *)
Definition roc_auc_hard (spam_labels : list R) (predictions : list bool)
  : result R :=
  let pairs := combine spam_labels predictions in
  let pos := filter (fun lp => Req_bool (fst lp) 1) pairs in
  let neg := filter (fun lp => Req_bool (fst lp) 0) pairs in
  match List.length pos, List.length neg with
  | O, _ => Raise ValueError
  | _, O => Raise ValueError
  | p, n =>
      Ok ((INR (List.length (filter snd pos)) / INR p
           + (1 - INR (List.length (filter snd neg)) / INR n)) / 2)
  end.

(** A test set with both classes, and a model that is right on it. *)
Definition two_rows : DataFrame :=
  [("free", [2; 0]); ("spam", [1; 0])].

(** A fold whose rows are all non-spam. *)
Definition no_spam_fold : DataFrame :=
  [("free", [2; 1]); ("spam", [0; 0])].

(** ** Proof tools *)

(** Evaluation of the model on concrete real inputs: decide the
    comparisons met on the way, then close the numeric equations. *)
Ltac decide_R :=
  repeat match goal with
    | |- context [Req_dec_T ?a ?b] =>
        destruct (Req_dec_T a b); try (exfalso; cbn [INR] in *; lra)
    | |- context [Rgt_dec ?a ?b] =>
        destruct (Rgt_dec a b); try (exfalso; cbn [INR] in *; lra)
    end.

Ltac eq_R :=
  match goal with
  | |- @eq R _ _ => lra || (field; lra)
  | |- _ => reflexivity || (f_equal; eq_R)
  end.

Ltac run_train :=
  unfold train, getitem;
  cbn [series_get String.eqb Ascii.eqb Bool.eqb bind map];
  unfold Req_bool; decide_R;
  cbn [select_rows map mask_select fst snd len List.length py_truediv bind
       columns labels removelast column_sums series_get String.eqb
       Ascii.eqb Bool.eqb Rsum values smooth];
  unfold np_divide; decide_R; cbn [INR].

Ltac run_class_sum :=
  unfold class_total, class_sum, class_rows;
  cbn [features_of removelast no_money_in_spam map snd List.length seq
       filter nth];
  unfold Req_bool; decide_R; cbn [map nth Rsum].

(** * Properties *)

Lemma len_slice_rows (a b : nat) (df : DataFrame) :
  (b <= len df)%nat -> len (slice_rows a b df) = (b - a)%nat.
Proof.
  destruct df as [|[name v] t]; simpl; intros H.
  - lia.
  - unfold slice. rewrite length_firstn, length_skipn. lia.
Qed.

Lemma slice_app {A : Type} (a b c : nat) (l : list A) :
  (a <= b)%nat -> (b <= c)%nat ->
  slice a b l ++ slice b c l = slice a c l.
Proof.
  intros Hab Hbc. unfold slice.
  replace (skipn b l) with (skipn (b - a) (skipn a l))
    by (rewrite skipn_skipn; f_equal; lia).
  replace (c - a)%nat with ((b - a) + (c - b))%nat by lia.
  generalize (skipn a l) as m. generalize (b - a)%nat as n.
  intros n. induction n as [|n IH]; intros m; simpl.
  - reflexivity.
  - destruct m as [|x m]; simpl.
    + now rewrite firstn_nil.
    + now rewrite IH.
Qed.

Lemma concat_slice_rows (a b c : nat) (df : DataFrame) :
  (a <= b)%nat -> (b <= c)%nat ->
  concat_rows (slice_rows a b df) (slice_rows b c df) = slice_rows a c df.
Proof.
  intros Hab Hbc. unfold concat_rows, slice_rows.
  induction df as [|[name v] t IH]; simpl.
  - reflexivity.
  - rewrite slice_app by assumption. now rewrite IH.
Qed.

Lemma folds_unfold (td : DataFrame) :
  let fs := (len td / 5)%nat in
  folds td =
    [slice_rows 0 fs td; slice_rows fs (2 * fs) td;
     slice_rows (2 * fs) (3 * fs) td; slice_rows (3 * fs) (4 * fs) td;
     slice_rows (4 * fs) (5 * fs) td].
Proof.
  intros fs. unfold folds. fold fs.
  assert (H : (5 * fs <= len td)%nat).
  { unfold fs. apply Nat.Div0.mul_div_le. }
  cbn [fold_left seq fold_step fst app].
  replace (Nat.min (0 + fs) (len td)) with fs by lia.
  replace (Nat.min (fs + fs) (len td)) with (2 * fs)%nat by lia.
  replace (Nat.min (2 * fs + fs) (len td)) with (3 * fs)%nat by lia.
  replace (Nat.min (3 * fs + fs) (len td)) with (4 * fs)%nat by lia.
  replace (Nat.min (4 * fs + fs) (len td)) with (5 * fs)%nat by lia.
  reflexivity.
Qed.

(** ** C1: the fold partition *)

(** C1 (as the code has it).  The fold loop cuts the training set into
    five contiguous folds of [len // 5] rows each: fold [i] is the slice
    [i * fold_size : (i + 1) * fold_size].  The sizes sum to
    [len - len mod 5]; the last [len mod 5] rows belong to no fold, and
    the folds, one after the other, are the first [5 * (len // 5)] rows of
    the training set. *)
Theorem folds_partition (training_data : DataFrame) :
  let n := len training_data in
  let fold_size := (n / 5)%nat in
  List.length (folds training_data) = 5%nat /\
  (forall i, (i < 5)%nat ->
     nth i (folds training_data) [] =
       slice_rows (i * fold_size) ((i + 1) * fold_size) training_data) /\
  map len (folds training_data) =
    [fold_size; fold_size; fold_size; fold_size; fold_size] /\
  list_sum (map len (folds training_data)) = (n - n mod 5)%nat /\
  concat_frames (folds training_data) =
    slice_rows 0 (5 * fold_size) training_data.
Proof.
  intros n fold_size.
  pose proof (folds_unfold training_data) as Hf. cbv zeta in Hf.
  fold n in Hf. fold fold_size in Hf.
  assert (Hle : (5 * fold_size <= n)%nat).
  { unfold fold_size. apply Nat.Div0.mul_div_le. }
  assert (Hsizes : map len (folds training_data) =
            [fold_size; fold_size; fold_size; fold_size; fold_size]).
  { rewrite Hf. cbn [map].
    rewrite !len_slice_rows by (fold n; lia).
    repeat f_equal; lia. }
  split; [now rewrite Hf|]. split; [|split; [exact Hsizes|split]].
  - intros i Hi. rewrite Hf.
    destruct i as [|[|[|[|[|i]]]]]; try lia; cbn [nth];
      f_equal; lia.
  - rewrite Hsizes. cbn [list_sum fold_right].
    pose proof (Nat.div_mod_eq n 5) as Hdm. fold fold_size in Hdm. lia.
  - rewrite Hf. cbn [concat_frames fold_left].
    rewrite !concat_slice_rows by lia. reflexivity.
Qed.

(** C1, the claim as written fails: a training set of 23 rows is cut into
    folds of sizes [4,4,4,4,4], not [4,4,4,4,7]; the sizes sum to 20 and
    the folds together are not the training set. *)
Lemma folds_23_sizes :
  len training_23 = 23%nat /\
  map len (folds training_23) = [4; 4; 4; 4; 4]%nat /\
  map len (folds training_23) <> [4; 4; 4; 4; 7]%nat /\
  list_sum (map len (folds training_23)) <> len training_23 /\
  concat_frames (folds training_23) <> training_23.
Proof.
  assert (Hs : map len (folds training_23) = [4; 4; 4; 4; 4]%nat)
    by reflexivity.
  split; [reflexivity|]. split; [exact Hs|]. split; [|split].
  - rewrite Hs. discriminate.
  - rewrite Hs. cbn. lia.
  - intros H. apply (f_equal len) in H. cbn in H. discriminate.
Qed.

(** ** The predictor's loop *)

Lemma predict_loop (wsp wnsp : Series num) (email : dict) (a b : num) :
  fold_left (predict_step wsp wnsp) email (a, b) =
    (fold_left np_add
       (flat_map (fun '(word, freq) =>
                    match series_get word wsp with
                    | Some p => [np_multiply freq (np_log p)]
                    | None => []
                    end) email) a,
     fold_left np_add
       (flat_map (fun '(word, freq) =>
                    match series_get word wnsp with
                    | Some p => [np_multiply freq (np_log p)]
                    | None => []
                    end) email) b).
Proof.
  revert a b. induction email as [|[word freq] t IH]; intros a b.
  - reflexivity.
  - cbn [fold_left flat_map predict_step]. rewrite IH.
    rewrite !fold_left_app.
    destruct (series_get word wsp), (series_get word wnsp); reflexivity.
Qed.

Lemma predict_score (email : dict) (prior_spam prior_non_spam : R)
    (wsp wnsp : Series num) :
  predict email prior_spam prior_non_spam wsp wnsp =
    np_greater (score prior_spam wsp email) (score prior_non_spam wnsp email).
Proof.
  unfold predict, score. now rewrite predict_loop.
Qed.


(** ** Series, masks and sums *)

Lemma Req_bool_true (x y : R) : Req_bool x y = true <-> x = y.
Proof.
  unfold Req_bool. destruct (Req_dec_T x y); split; intros; try easy.
Qed.

Lemma Req_bool_false (x y : R) : Req_bool x y = false <-> x <> y.
Proof.
  unfold Req_bool. destruct (Req_dec_T x y); split; intros; try easy.
Qed.

Lemma Rgt_bool_true (x y : R) : Rgt_bool x y = true <-> x > y.
Proof.
  unfold Rgt_bool. destruct (Rgt_dec x y); split; intros; try easy.
Qed.

Lemma np_divide_fin (a b : R) : b <> 0 -> np_divide a b = Fin (a / b).
Proof.
  intros H. unfold np_divide. destruct (Req_dec_T b 0); easy.
Qed.


Lemma np_log_zero : np_log (Fin 0) = NInf.
Proof.
  unfold np_log. destruct (Rgt_dec 0 0); [lra|].
  destruct (Req_dec_T 0 0); [reflexivity|contradiction].
Qed.

Lemma series_get_In {A : Type} (s : Series A) (c : string * A) :
  NoDup (labels s) -> In c s -> series_get (fst c) s = Some (snd c).
Proof.
  unfold labels. induction s as [|[k v] t IH]; intros Hnd Hin.
  - destruct Hin.
  - cbn [series_get]. inversion Hnd as [|? ? Hk Ht]; subst.
    destruct Hin as [<-|Hin].
    + cbn. now rewrite String.eqb_refl.
    + destruct (String.eqb (fst c) k) eqn:E.
      * apply String.eqb_eq in E. subst k. exfalso. apply Hk.
        now apply in_map.
      * now apply IH.
Qed.

Lemma series_get_Some_In {A : Type} (s : Series A) (k : string) (v : A) :
  series_get k s = Some v -> In (k, v) s.
Proof.
  induction s as [|[k' v'] t IH]; cbn [series_get]; intros H.
  - discriminate.
  - destruct (String.eqb k k') eqn:E.
    + apply String.eqb_eq in E. injection H as ->. subst. now left.
    + right. now apply IH.
Qed.

Lemma series_get_map {A B : Type} (f : A -> B) (s : Series A) (k : string) :
  series_get k (map (fun c => (fst c, f (snd c))) s) =
    option_map f (series_get k s).
Proof.
  induction s as [|[k' v'] t IH]; cbn [series_get map fst snd].
  - reflexivity.
  - destruct (String.eqb k k'); [reflexivity | exact IH].
Qed.

Lemma removelast_map {A B : Type} (f : A -> B) (l : list A) :
  removelast (map f l) = map f (removelast l).
Proof.
  induction l as [|x [|y t] IH]; try reflexivity.
  cbn [map removelast] in *. now rewrite IH.
Qed.

Lemma mask_select_rows {A : Type} (p : R -> bool) (label : list R)
    (v : list A) (d : A) :
  List.length v = List.length label ->
  mask_select (map p label) v =
    map (fun i => nth i v d)
        (filter (fun i => p (nth i label 0)) (seq 0 (List.length label))).
Proof.
  revert v. induction label as [|a label IH]; intros [|x v] Hlen;
    try discriminate; try reflexivity.
  cbn [List.length] in *. injection Hlen as Hlen.
  cbn [map mask_select seq]. rewrite <- seq_shift.
  assert (Hshift :
    map (fun i => nth i (x :: v) d)
        (filter (fun i => p (nth i (a :: label) 0))
                (map S (seq 0 (List.length label)))) =
    map (fun i => nth i v d)
        (filter (fun i => p (nth i label 0)) (seq 0 (List.length label)))).
  { generalize (seq 0 (List.length label)) as l.
    induction l as [|i l IHl]; [reflexivity|].
    cbn [map filter].
    change (nth (S i) (a :: label) 0) with (nth i label 0).
    destruct (p (nth i label 0)).
    - cbn [map]. change (nth (S i) (x :: v) d) with (nth i v d).
      now rewrite IHl.
    - exact IHl. }
  cbn [filter]. change (nth 0 (a :: label) 0) with a.
  destruct (p a); cbn [map]; rewrite Hshift, IH by assumption;
    reflexivity.
Qed.

Lemma class_sum_select (label v : list R) (c : R) :
  List.length v = List.length label ->
  Rsum (mask_select (map (fun x => Req_bool x c) label) v) =
    class_sum label c v.
Proof.
  intros H. unfold class_sum, class_rows.
  now rewrite (mask_select_rows (fun x => Req_bool x c) label v 0 H).
Qed.

Lemma class_len_select {A : Type} (label : list R) (v : list A) (c : R) :
  List.length v = List.length label ->
  List.length (mask_select (map (fun x => Req_bool x c) label) v) =
    List.length (class_rows label c).
Proof.
  intros H. destruct v as [|d v].
  - destruct label; [reflexivity | discriminate].
  - rewrite (mask_select_rows (fun x => Req_bool x c) label (d :: v) d H).
    unfold class_rows. now rewrite length_map.
Qed.

Lemma Rsum_nonneg (l : list R) : (forall x, In x l -> 0 <= x) -> 0 <= Rsum l.
Proof.
  induction l as [|x t IH]; intros H; cbn [Rsum].
  - lra.
  - assert (0 <= x) by (apply H; now left).
    assert (0 <= Rsum t) by (apply IH; intros; apply H; now right).
    lra.
Qed.

Lemma Rsum_In_le (l : list R) (x : R) :
  (forall y, In y l -> 0 <= y) -> In x l -> x <= Rsum l.
Proof.
  induction l as [|y t IH]; intros H Hin; [destruct Hin|].
  cbn [Rsum]. destruct Hin as [->|Hin].
  - assert (0 <= Rsum t) by (apply Rsum_nonneg; intros; apply H; now right).
    lra.
  - assert (0 <= y) by (apply H; now left).
    assert (x <= Rsum t) by (apply IH; [intros; apply H; now right|easy]).
    lra.
Qed.

Lemma class_sum_nonneg (label v : list R) (c : R) :
  (forall x, In x v -> 0 <= x) -> 0 <= class_sum label c v.
Proof.
  intros H. unfold class_sum. apply Rsum_nonneg.
  intros x Hx. apply in_map_iff in Hx as [i [<- _]].
  destruct (Nat.lt_ge_cases i (List.length v)) as [Hi|Hi].
  - apply H. now apply nth_In.
  - rewrite nth_overflow by assumption. lra.
Qed.

(** ** The trainer on a Dataset *)

Lemma dataset_label (df : DataFrame) :
  is_dataset df ->
  exists label,
    series_get "spam" df = Some label /\
    df = features_of df ++ [("spam", label)] /\
    List.length label = len df /\
    forall c, In c (features_of df) ->
      In c df /\ List.length (snd c) = List.length label.
Proof.
  intros (Hrect & Hnd & label & Hdf). exists label.
  assert (Hin : In ("spam", label) df).
  { rewrite Hdf. apply in_or_app. right. now left. }
  assert (Hlen : List.length label = len df) by apply (Hrect _ Hin).
  split; [|split; [exact Hdf|split; [exact Hlen|]]].
  - apply (series_get_In df ("spam", label) Hnd Hin).
  - intros c Hc.
    assert (In c df) by (rewrite Hdf; apply in_or_app; now left).
    split; [assumption|]. rewrite Hlen. now apply Hrect.
Qed.

Lemma len_select_rows (df : DataFrame) (label : list R) (c : R) :
  rectangular df -> List.length label = len df ->
  len (select_rows (map (fun x => Req_bool x c) label) df) =
    List.length (class_rows label c).
Proof.
  intros Hrect Hlen. destruct df as [|[k v] t].
  - cbn in Hlen. destruct label; [reflexivity | discriminate].
  - cbn [select_rows map len fst snd]. apply class_len_select.
    now rewrite Hlen.
Qed.

Lemma column_sums_select (df feats : DataFrame) (label : list R) (c : R) :
  NoDup (columns df) ->
  (forall f, In f feats ->
     In f df /\ List.length (snd f) = List.length label) ->
  column_sums (select_rows (map (fun x => Req_bool x c) label) df)
              (columns feats) =
    map (fun f => (fst f, class_sum label c (snd f))) feats.
Proof.
  intros Hnd Hfeats. unfold column_sums, columns, labels.
  rewrite map_map. apply map_ext_in. intros f Hf.
  destruct (Hfeats f Hf) as [Hin Hlen].
  unfold select_rows. rewrite series_get_map.
  rewrite (series_get_In df f Hnd Hin). cbn [option_map].
  now rewrite class_sum_select.
Qed.

Lemma train_on_dataset (train_data : DataFrame) (alpha : R) (label : list R) :
  is_dataset train_data ->
  series_get "spam" train_data = Some label ->
  len train_data <> 0%nat ->
  train train_data alpha =
    Ok (INR (List.length (class_rows label 1)) / INR (len train_data),
        INR (List.length (class_rows label 0)) / INR (len train_data),
        smoothed label 1 (features_of train_data) alpha,
        smoothed label 0 (features_of train_data) alpha).
Proof.
  intros Hds Hget Hne.
  destruct (dataset_label train_data Hds) as (label' & Hget' & _ & Hlen & Hf).
  rewrite Hget in Hget'. injection Hget' as <-.
  destruct Hds as (Hrect & Hnd & _).
  unfold train, getitem. rewrite Hget. cbn [bind].
  rewrite !(len_select_rows train_data label) by assumption.
  destruct (len train_data) as [|n] eqn:En; [contradiction|].
  cbn [py_truediv bind].
  replace (removelast (columns train_data))
    with (columns (features_of train_data))
    by (unfold columns, labels, features_of; now rewrite removelast_map).
  rewrite !(column_sums_select train_data (features_of train_data) label)
    by assumption.
  unfold smoothed, smooth, values, class_total, columns, labels.
  rewrite !map_map, !length_map. cbn [fst snd]. reflexivity.
Qed.

Lemma dataset_features_nodup (df : DataFrame) :
  is_dataset df -> NoDup (columns (features_of df)).
Proof.
  intros (_ & Hnd & label & Hdf). rewrite Hdf in Hnd.
  unfold columns, labels in *. rewrite map_app in Hnd.
  now apply NoDup_app_remove_r in Hnd.
Qed.

Lemma series_get_smoothed (df : DataFrame) (label : list R) (c alpha : R)
    (f : string * list R) :
  is_dataset df -> In f (features_of df) ->
  series_get (fst f) (smoothed label c (features_of df) alpha) =
    Some (np_divide (class_sum label c (snd f) + alpha)
                    (class_total label c (features_of df)
                     + alpha * INR (List.length (features_of df)))).
Proof.
  intros Hds Hf. unfold smoothed.
  set (g := fun f0 : string * list R => (fst f0, _)).
  change (fst f) with (fst (g f)).
  change (Some _) with (Some (snd (g f))).
  apply series_get_In.
  - unfold labels. rewrite map_map. cbn [g fst].
    apply (dataset_features_nodup df Hds).
  - now apply in_map.
Qed.

Lemma toy_is_dataset : is_dataset toy.
Proof.
  split; [|split].
  - intros c [<-|[<-|[<-|[]]]]; reflexivity.
  - unfold columns, labels, toy. cbn [map fst].
    repeat constructor; cbn [In]; intuition discriminate.
  - exists [1; 0; 1]. reflexivity.
Qed.

(** ** C2: what the trainer returns *)

(** C2.  On a non-empty Dataset [train] returns: the share of the rows
    labelled 1 and the share of the rows labelled 0 as the two priors,
    and for each feature [f] (each column but the label) the value
    [(sum of f over the class's rows + alpha) /
     (sum of all features over the class's rows + alpha * |features|)],
    a real quotient wherever that divisor is not zero.  Neither the
    0-or-1 shape of the labels nor the sign of [alpha] is needed for
    these equations. *)
Theorem train_estimates (train_data : DataFrame) (alpha : R) :
  is_dataset train_data ->
  len train_data <> 0%nat ->
  let feats := features_of train_data in
  exists label wsp wnsp,
    series_get "spam" train_data = Some label /\
    train train_data alpha =
      Ok (INR (List.length (class_rows label 1)) / INR (len train_data),
          INR (List.length (class_rows label 0)) / INR (len train_data),
          wsp, wnsp) /\
    labels wsp = columns feats /\
    labels wnsp = columns feats /\
    forall f, In f feats ->
      let spam_den :=
        class_total label 1 feats + alpha * INR (List.length feats) in
      let non_spam_den :=
        class_total label 0 feats + alpha * INR (List.length feats) in
      series_get (fst f) wsp =
        Some (np_divide (class_sum label 1 (snd f) + alpha) spam_den) /\
      series_get (fst f) wnsp =
        Some (np_divide (class_sum label 0 (snd f) + alpha) non_spam_den) /\
      (spam_den <> 0 ->
       series_get (fst f) wsp =
         Some (Fin ((class_sum label 1 (snd f) + alpha) / spam_den))) /\
      (non_spam_den <> 0 ->
       series_get (fst f) wnsp =
         Some (Fin ((class_sum label 0 (snd f) + alpha) / non_spam_den))).
Proof.
  intros Hds Hne feats.
  destruct (dataset_label train_data Hds) as (label & Hget & _).
  exists label, (smoothed label 1 feats alpha), (smoothed label 0 feats alpha).
  split; [exact Hget|]. split; [now apply train_on_dataset|].
  split; [|split].
  - unfold smoothed, labels, columns, labels. now rewrite map_map.
  - unfold smoothed, labels, columns, labels. now rewrite map_map.
  - intros f Hf spam_den non_spam_den.
    pose proof (series_get_smoothed train_data label 1 alpha f Hds Hf) as H1.
    pose proof (series_get_smoothed train_data label 0 alpha f Hds Hf) as H0.
    fold feats in H1, H0. fold spam_den in H1. fold non_spam_den in H0.
    repeat split; try assumption.
    + intros Hd. now rewrite H1, np_divide_fin.
    + intros Hd. now rewrite H0, np_divide_fin.
Qed.

Lemma train_estimates_witness :
  exists label wsp wnsp,
    series_get "spam" toy = Some label /\
    train toy (9 / 100) =
      Ok (INR (List.length (class_rows label 1)) / INR (len toy),
          INR (List.length (class_rows label 0)) / INR (len toy),
          wsp, wnsp).
Proof.
  destruct (train_estimates toy (9 / 100) toy_is_dataset)
    as (label & wsp & wnsp & Hget & Htrain & _).
  - cbn. discriminate.
  - exists label, wsp, wnsp. split; assumption.
Defined.

Example train_toy :
  train toy (9 / 100) =
    Ok (2 / 3, 1 / 3,
        [("free", Fin (309 / 718)); ("money", Fin (409 / 718))],
        [("free", Fin (1 / 2)); ("money", Fin (1 / 2))]).
Proof. unfold toy. run_train. eq_R. Qed.

(** ** C7: priors and conditional probabilities are probabilities *)

Lemma filter_split_length {A : Type} (p q : A -> bool) (l : list A) :
  (forall x, In x l -> p x = negb (q x)) ->
  (List.length (filter p l) + List.length (filter q l))%nat = List.length l.
Proof.
  induction l as [|x t IH]; intros H; [reflexivity|].
  cbn [filter]. rewrite (H x (or_introl eq_refl)).
  assert (IH' := IH (fun y Hy => H y (or_intror Hy))).
  destruct (q x); cbn [negb List.length]; lia.
Qed.

Lemma class_rows_binary (label : list R) :
  (forall v, In v label -> v = 0 \/ v = 1) ->
  (List.length (class_rows label 1) + List.length (class_rows label 0))%nat =
    List.length label.
Proof.
  intros Hbin. unfold class_rows.
  rewrite filter_split_length; [now rewrite length_seq|].
  intros i Hi. apply in_seq in Hi.
  destruct (Hbin (nth i label 0)) as [E|E]; [apply nth_In; lia| |];
    rewrite E; unfold Req_bool; decide_R; reflexivity.
Qed.

Lemma class_sum_le_total (label : list R) (c : R) (feats : DataFrame)
    (f : string * list R) :
  (forall g v, In g feats -> In v (snd g) -> 0 <= v) ->
  In f feats ->
  0 <= class_sum label c (snd f) <= class_total label c feats.
Proof.
  intros Hnn Hf. split.
  - apply class_sum_nonneg. intros v. now apply Hnn.
  - unfold class_total. apply Rsum_In_le.
    + intros y Hy. apply in_map_iff in Hy as [g [<- Hg]].
      apply class_sum_nonneg. intros v. now apply Hnn.
    + apply in_map_iff. now exists f.
Qed.

Lemma INR_length_ge_1 {A : Type} (l : list A) (x : A) :
  In x l -> 1 <= INR (List.length l).
Proof.
  intros H. destruct l as [|y t]; [destruct H|].
  change 1 with (INR 1). apply le_INR. cbn [List.length]. lia.
Qed.

Lemma smoothed_in_unit (s total alpha n : R) :
  0 <= s <= total -> 0 < alpha -> 1 <= n ->
  0 < total + alpha * n /\
  0 < (s + alpha) / (total + alpha * n) <= 1.
Proof.
  intros [Hs Hst] Ha Hn.
  assert (Hd : 0 < total + alpha * n) by nra.
  split; [exact Hd|]. split.
  - apply Rdiv_lt_0_compat; lra.
  - apply (Rmult_le_reg_r (total + alpha * n)); [exact Hd|].
    unfold Rdiv. rewrite Rmult_assoc, Rinv_l by lra. nra.
Qed.

(** C7 (in exact arithmetic).  With the quotients of [train] taken in the
    real numbers: for a non-empty Dataset with labels 0 or 1, non-negative
    feature values and [alpha > 0], [train] returns priors that sum to 1
    and conditional probabilities that are finite, strictly positive and
    at most 1.  (That both classes occur is not needed.) *)
Theorem train_probabilities (train_data : DataFrame) (alpha : R)
    (label : list R) :
  is_dataset train_data ->
  series_get "spam" train_data = Some label ->
  len train_data <> 0%nat ->
  (forall v, In v label -> v = 0 \/ v = 1) ->
  nonneg_features train_data ->
  0 < alpha ->
  exists prior_spam prior_non_spam wsp wnsp,
    train train_data alpha = Ok (prior_spam, prior_non_spam, wsp, wnsp) /\
    prior_spam + prior_non_spam = 1 /\
    labels wsp = columns (features_of train_data) /\
    labels wnsp = columns (features_of train_data) /\
    forall f p, In (f, p) wsp \/ In (f, p) wnsp ->
      exists r, p = Fin r /\ 0 < r <= 1.
Proof.
  intros Hds Hget Hne Hbin Hnn Ha.
  destruct (dataset_label train_data Hds) as (label' & Hget' & _ & Hlen & _).
  rewrite Hget in Hget'. injection Hget' as <-.
  do 4 eexists.
  split; [apply (train_on_dataset train_data alpha label); assumption|].
  split; [|split; [|split]].
  - rewrite <- Rdiv_plus_distr, <- plus_INR, class_rows_binary,
      Hlen by assumption.
    apply Rdiv_diag. now apply not_0_INR.
  - unfold smoothed, labels, columns, labels. now rewrite map_map.
  - unfold smoothed, labels, columns, labels. now rewrite map_map.
  - intros f p Hin.
    assert (Hc : exists c g, In g (features_of train_data) /\
              p = np_divide (class_sum label c (snd g) + alpha)
                    (class_total label c (features_of train_data)
                     + alpha * INR (List.length (features_of train_data)))).
    { destruct Hin as [Hin|Hin]; unfold smoothed in Hin;
        apply in_map_iff in Hin as [g [Hg Hgin]];
        injection Hg as _ <-; eauto. }
    destruct Hc as (c & g & Hg & ->).
    destruct (smoothed_in_unit
                (class_sum label c (snd g))
                (class_total label c (features_of train_data)) alpha
                (INR (List.length (features_of train_data))))
      as [Hd Hr].
    + apply class_sum_le_total; assumption.
    + exact Ha.
    + apply (INR_length_ge_1 _ g Hg).
    + eexists. split; [apply np_divide_fin; lra | exact Hr].
Qed.

Lemma train_probabilities_witness :
  exists prior_spam prior_non_spam wsp wnsp,
    train toy (9 / 100) = Ok (prior_spam, prior_non_spam, wsp, wnsp) /\
    prior_spam + prior_non_spam = 1.
Proof.
  destruct (train_probabilities toy (9 / 100) [1; 0; 1] toy_is_dataset)
    as (ps & pn & wsp & wnsp & Htrain & Hsum & _).
  - reflexivity.
  - cbn. discriminate.
  - intros v [<-|[<-|[<-|[]]]]; auto.
  - intros c v [<-|[<-|[]]] Hv; cbn [snd In] in Hv;
      repeat (destruct Hv as [<-|Hv]; [lra|]); destruct Hv.
  - lra.
  - exists ps, pn, wsp, wnsp. split; assumption.
Defined.

(** C7, counterexample in the arithmetic the program runs in.  On a fold
    with both classes, labels 0 and 1 and non-negative values, and with
    the smallest positive double as smoothing constant, the quotient for a
    word the spam rows never have rounds to 0: the entry is not strictly
    greater than 0.  With the smoothing constant 2^1023 the product
    [laplace_alpha * len(features)] overflows to infinity and every entry
    is 0. *)
Lemma train_doubles_reach_zero :
  PrimFloat.ltb 0 0x1p-1074 = true /\
  train_double no_free_in_spam 0x1p-1074 =
    Ok (0.5, 0.5, [("free", 0); ("money", 1)],
        [("free", 0.5); ("money", 0.5)])%float /\
  PrimFloat.ltb 0 0x1p+1023 = true /\
  train_double no_free_in_spam 0x1p+1023 =
    Ok (0.5, 0.5, [("free", 0); ("money", 0)],
        [("free", 0); ("money", 0)])%float.
Proof. repeat split; vm_compute; reflexivity. Qed.

(** ** C10: the effect of the smoothing constant *)

Section Smoothing.

(** [s]: the feature's sum over the class; [total]: all features' sum
    over the class; [n]: the number of features. *)
Variables s total n : R.
Hypothesis total_nonneg : 0 <= total.
Hypothesis n_ge_1 : 1 <= n.

Let p (alpha : R) : R := (s + alpha) / (total + alpha * n).

Lemma smoothing_den_pos (alpha : R) : 0 < alpha -> 0 < total + alpha * n.
Proof. intros Ha. nra. Qed.

Lemma smoothing_gap (alpha : R) :
  0 < alpha ->
  p alpha - 1 / n = (n * s - total) / (n * (total + alpha * n)).
Proof.
  intros Ha. pose proof (smoothing_den_pos alpha Ha).
  unfold p. field. split; lra.
Qed.

Lemma smoothing_below_iff (alpha : R) :
  0 < alpha -> (p alpha <= 1 / n <-> n * s <= total).
Proof.
  intros Ha. pose proof (smoothing_den_pos alpha Ha) as Hd.
  pose proof (smoothing_gap alpha Ha) as Hg.
  assert (Hnd : 0 < n * (total + alpha * n)) by nra.
  assert (Hm : n * s - total =
               (p alpha - 1 / n) * (n * (total + alpha * n))).
  { rewrite Hg. field. split; lra. }
  split; intros H.
  - assert (p alpha - 1 / n <= 0) by lra. nra.
  - assert (p alpha - 1 / n <= 0); [|lra].
    rewrite Hg. apply Rmult_le_reg_r with (n * (total + alpha * n));
      [exact Hnd|].
    unfold Rdiv. rewrite Rmult_assoc, Rinv_l by lra. lra.
Qed.

Lemma smoothing_above_iff (alpha : R) :
  0 < alpha -> (1 / n <= p alpha <-> total <= n * s).
Proof.
  intros Ha. pose proof (smoothing_den_pos alpha Ha) as Hd.
  pose proof (smoothing_gap alpha Ha) as Hg.
  assert (Hnd : 0 < n * (total + alpha * n)) by nra.
  assert (Hm : n * s - total =
               (p alpha - 1 / n) * (n * (total + alpha * n))).
  { rewrite Hg. field. split; lra. }
  split; intros H.
  - assert (0 <= p alpha - 1 / n) by lra. nra.
  - assert (0 <= p alpha - 1 / n); [|lra].
    rewrite Hg. apply Rmult_le_reg_r with (n * (total + alpha * n));
      [exact Hnd|].
    unfold Rdiv. rewrite Rmult_assoc, Rinv_l by lra. lra.
Qed.

Lemma smoothing_step (a b : R) :
  0 < a -> a <= b ->
  p b - p a =
    (b - a) * (total - n * s) / ((total + a * n) * (total + b * n)).
Proof.
  intros Ha Hab.
  pose proof (smoothing_den_pos a Ha).
  assert (0 < b) by lra. pose proof (smoothing_den_pos b H0).
  unfold p. field. split; lra.
Qed.

Lemma smoothing_monotone (a b : R) :
  0 < a -> a <= b ->
  (p a <= 1 / n -> p a <= p b /\ p b <= 1 / n) /\
  (1 / n <= p a -> 1 / n <= p b /\ p b <= p a).
Proof.
  intros Ha Hab. assert (Hb : 0 < b) by lra.
  pose proof (smoothing_den_pos a Ha) as Hda.
  pose proof (smoothing_den_pos b Hb) as Hdb.
  pose proof (smoothing_step a b Ha Hab) as Hstep.
  assert (Hdd : 0 < (total + a * n) * (total + b * n)) by nra.
  assert (Hinv : 0 < / ((total + a * n) * (total + b * n)))
    by now apply Rinv_0_lt_compat.
  split; intros H.
  - apply smoothing_below_iff in H; [|exact Ha]. split.
    + assert (0 <= p b - p a); [|lra]. rewrite Hstep. unfold Rdiv.
      apply Rmult_le_pos; [nra|lra].
    + now apply smoothing_below_iff.
  - apply smoothing_above_iff in H; [|exact Ha]. split.
    + now apply smoothing_above_iff.
    + assert (p b - p a <= 0); [|lra]. rewrite Hstep. unfold Rdiv.
      assert (Hx : (b - a) * (total - n * s) <= 0) by nra.
      generalize dependent ((b - a) * (total - n * s)).
      generalize dependent (/ ((total + a * n) * (total + b * n))).
      intros. nra.
Qed.

Lemma smoothing_limit (eps : R) :
  0 < eps ->
  exists A, 0 <= A /\
    forall alpha, A < alpha -> Rabs (p alpha - 1 / n) < eps.
Proof.
  intros He. exists (Rabs (n * s - total) / eps).
  assert (HA : 0 <= Rabs (n * s - total) / eps).
  { apply Rmult_le_pos; [apply Rabs_pos|].
    left. now apply Rinv_0_lt_compat. }
  split; [exact HA|]. intros alpha Hlt.
  assert (Ha : 0 < alpha) by lra.
  pose proof (smoothing_den_pos alpha Ha) as Hd.
  assert (Hk : Rabs (n * s - total) < eps * alpha).
  { apply Rmult_lt_compat_r with (r := eps) in Hlt; [|exact He].
    unfold Rdiv in Hlt. rewrite Rmult_assoc, Rinv_l in Hlt by lra. lra. }
  assert (Hy : alpha <= n * (total + alpha * n)) by nra.
  assert (Hy0 : 0 < n * (total + alpha * n)) by lra.
  rewrite (smoothing_gap alpha Ha).
  set (k := n * s - total) in *. set (y := n * (total + alpha * n)) in *.
  assert (Hbound : Rabs k < eps * y) by nra.
  assert (Hq : k / y * y = k) by (field; lra).
  apply Rabs_def1.
  - apply Rmult_lt_reg_r with y; [exact Hy0|]. rewrite Hq.
    pose proof (Rle_abs k). lra.
  - apply Rmult_lt_reg_r with y; [exact Hy0|]. rewrite Hq.
    pose proof (Rle_abs (- k)). rewrite Rabs_Ropp in H. lra.
Qed.

End Smoothing.

Lemma class_total_nonneg (label : list R) (c : R) (feats : DataFrame) :
  (forall g v, In g feats -> In v (snd g) -> 0 <= v) ->
  0 <= class_total label c feats.
Proof.
  intros Hnn. unfold class_total. apply Rsum_nonneg.
  intros y Hy. apply in_map_iff in Hy as [g [<- Hg]].
  apply class_sum_nonneg. intros v. now apply Hnn.
Qed.

Lemma word_prob_on_dataset (train_data : DataFrame) (label : list R)
    (f : string * list R) (spam : bool) (alpha : R) :
  is_dataset train_data ->
  series_get "spam" train_data = Some label ->
  len train_data <> 0%nat ->
  In f (features_of train_data) ->
  word_prob train_data alpha spam (fst f) =
    Some (np_divide
            (class_sum label (class_label spam) (snd f) + alpha)
            (class_total label (class_label spam) (features_of train_data)
             + alpha * INR (List.length (features_of train_data)))).
Proof.
  intros Hds Hget Hne Hf. unfold word_prob.
  rewrite (train_on_dataset train_data alpha label Hds Hget Hne).
  destruct spam; cbn [class_label]; now apply series_get_smoothed.
Qed.

(** C10 (in exact arithmetic).  With the quotients of [train] taken in
    the real numbers: fix a non-empty Dataset with non-negative feature
    values, a feature [f] and a class.  For every [alpha > 0] the conditional
    probability that [train] returns for [f] is
    [p alpha = (s + alpha) / (total + alpha * n)], with [s] the sum of
    [f] over the class, [total] the sum of all features over the class
    and [n] the number of features.  As [alpha] grows, [p alpha] moves
    monotonically toward [1 / n] without crossing it: from below it does
    not decrease, from above it does not increase; and [p alpha] tends
    to [1 / n] as [alpha] tends to infinity. *)
Theorem smoothing_moves_to_uniform (train_data : DataFrame) (label : list R)
    (f : string * list R) (spam : bool) :
  is_dataset train_data ->
  series_get "spam" train_data = Some label ->
  len train_data <> 0%nat ->
  nonneg_features train_data ->
  In f (features_of train_data) ->
  let s := class_sum label (class_label spam) (snd f) in
  let total :=
    class_total label (class_label spam) (features_of train_data) in
  let n := INR (List.length (features_of train_data)) in
  let p := fun alpha => (s + alpha) / (total + alpha * n) in
  (forall alpha, 0 < alpha ->
     word_prob train_data alpha spam (fst f) = Some (Fin (p alpha))) /\
  (forall a b, 0 < a -> a <= b ->
     (p a <= 1 / n -> p a <= p b /\ p b <= 1 / n) /\
     (1 / n <= p a -> 1 / n <= p b /\ p b <= p a)) /\
  (forall eps, 0 < eps ->
     exists A, 0 <= A /\
       forall alpha, A < alpha -> Rabs (p alpha - 1 / n) < eps).
Proof.
  intros Hds Hget Hne Hnn Hf s total n p.
  assert (Ht : 0 <= total) by now apply class_total_nonneg.
  assert (Hn : 1 <= n) by apply (INR_length_ge_1 _ f Hf).
  split; [|split].
  - intros alpha Ha.
    rewrite (word_prob_on_dataset train_data label f spam alpha)
      by assumption.
    fold s total n. rewrite np_divide_fin; [reflexivity|].
    pose proof (smoothing_den_pos total n Ht Hn alpha Ha). lra.
  - intros a b Ha Hab. apply (smoothing_monotone s total n Ht Hn a b Ha Hab).
  - intros eps He. apply (smoothing_limit s total n Ht Hn eps He).
Qed.

Lemma smoothing_moves_to_uniform_witness :
  word_prob toy (9 / 100) true "free" =
    Some (Fin ((class_sum [1; 0; 1] 1 [2; 0; 1] + 9 / 100) /
               (class_total [1; 0; 1] 1 (features_of toy)
                + 9 / 100 * INR (List.length (features_of toy))))).
Proof.
  apply (smoothing_moves_to_uniform toy [1; 0; 1] ("free", [2; 0; 1]) true
           toy_is_dataset).
  - reflexivity.
  - cbn. discriminate.
  - intros c v [<-|[<-|[]]] Hv; cbn [snd In] in Hv;
      repeat (destruct Hv as [<-|Hv]; [lra|]); destruct Hv.
  - cbn. auto.
  - lra.
Defined.

(** C10, counterexample in the arithmetic the program runs in.  On a fold
    whose spam row has the word counts 2, 2 and 3, the probability of
    [free] lies below the uniform value 1/3; raising the smoothing
    constant from 2 to the next double lowers it, away from 1/3. *)
Lemma smoothing_not_monotone_in_doubles :
  PrimFloat.ltb 0 2 = true /\
  PrimFloat.ltb 2 0x1.0000000000001p+1 = true /\
  train_double three_words 2 =
    Ok (0.5, 0.5,
        [("free", 0x1.3b13b13b13b14p-2); ("money", 0x1.3b13b13b13b14p-2);
         ("offer", 0x1.89d89d89d89d9p-2)],
        [("free", 0x1.5555555555555p-2); ("money", 0x1.5555555555555p-2);
         ("offer", 0x1.5555555555555p-2)])%float /\
  train_double three_words 0x1.0000000000001p+1 =
    Ok (0.5, 0.5,
        [("free", 0x1.3b13b13b13b13p-2); ("money", 0x1.3b13b13b13b13p-2);
         ("offer", 0x1.89d89d89d89d8p-2)],
        [("free", 0x1.5555555555555p-2); ("money", 0x1.5555555555555p-2);
         ("offer", 0x1.5555555555555p-2)])%float /\
  PrimFloat.ltb 0x1.3b13b13b13b14p-2 (PrimFloat.div 1 3) = true /\
  PrimFloat.ltb 0x1.3b13b13b13b13p-2 0x1.3b13b13b13b14p-2 = true.
Proof. repeat split; vm_compute; reflexivity. Qed.

(** ** C3: what the predictor compares *)









(** ** The evaluator's loop *)

Section EvaluatorProperties.

Variable roc_auc_score : list R -> list bool -> result R.
Variables (prior_spam prior_non_spam : R).
Variables (wsp wnsp : Series num).

Let prediction := row_prediction prior_spam prior_non_spam wsp wnsp.
Let right_ := is_correct prior_spam prior_non_spam wsp wnsp.

Lemma series_get_labels {A : Type} (s : Series A) (k : string) (v : A) :
  series_get k s = Some v -> existsb (String.eqb k) (labels s) = true.
Proof.
  induction s as [|[k' v'] t IH]; cbn [series_get labels map existsb fst].
  - discriminate.
  - destruct (String.eqb k k'); [reflexivity | exact IH].
Qed.

Lemma test_step_labelled (st : tally) (row : Series R) (l : R) :
  series_get "spam" row = Some l ->
  test_step prior_spam prior_non_spam wsp wnsp st row =
    Ok (mkTally
          (correct st + (if right_ row then 1 else 0))
          (false_positive st
           + (if prediction row && negb (right_ row) then 1 else 0))
          (true_positive st
           + (if prediction row && right_ row then 1 else 0))
          (predictions st ++ [prediction row])
          (spam_labels st ++ [row_label row])).
Proof.
  intros Hl. unfold test_step, series_drop, series_getitem.
  rewrite (series_get_labels row "spam" l Hl), Hl. cbn [bind].
  unfold right_, prediction, is_correct, row_label. rewrite Hl.
  fold (row_prediction prior_spam prior_non_spam wsp wnsp row).
  destruct (Req_bool _ l), (row_prediction _ _ _ _ row);
    cbn [andb negb]; rewrite ?Nat.add_0_r; reflexivity.
Qed.

Lemma test_loop (rows : list (Series R)) (st : tally) :
  (forall row, In row rows -> exists l, series_get "spam" row = Some l) ->
  foldM (test_step prior_spam prior_non_spam wsp wnsp) rows st =
    Ok (mkTally
          (correct st + List.length (filter right_ rows))
          (false_positive st
           + List.length
               (filter (fun r => prediction r && negb (right_ r)) rows))
          (true_positive st
           + List.length
               (filter (fun r => prediction r && right_ r) rows))
          (predictions st ++ map prediction rows)
          (spam_labels st ++ map (row_label) rows)).
Proof.
  revert st. induction rows as [|row rows IH]; intros st Hrows.
  - cbn [foldM filter map List.length]. rewrite !Nat.add_0_r, !app_nil_r.
    now destruct st.
  - destruct (Hrows row (or_introl eq_refl)) as [l Hl].
    cbn [foldM]. rewrite (test_step_labelled st row l Hl). cbn [bind].
    rewrite IH by (intros r Hr; apply Hrows; now right).
    cbn [correct false_positive true_positive predictions spam_labels
         filter map].
    rewrite <- !app_assoc. cbn [app].
    destruct (right_ row), (prediction row); cbn [andb negb List.length];
      do 2 f_equal; lia.
Qed.

Lemma iterrows_label (df : DataFrame) (label : list R) (row : Series R) :
  series_get "spam" df = Some label ->
  In row (iterrows df) ->
  exists i, series_get "spam" row = Some (nth i label 0).
Proof.
  intros Hl Hin. unfold iterrows in Hin.
  apply in_map_iff in Hin as [i [<- _]]. exists i.
  now rewrite (series_get_map (fun v => nth i v 0) df "spam"), Hl.
Qed.

End EvaluatorProperties.

(** With priors 1 and 0 and no known word every row is predicted spam:
    on [toy] (labels 1, 0, 1) two rows are right, both true positives,
    and one is a false positive. *)
Example test_toy :
  test (fun _ _ => Ok (1 / 2)) 1 0 [] [] toy =
    Ok (2 / 3, 1 / 3, 2 / 3, 1 / 2).
Proof.
  unfold test, toy, iterrows.
  cbn [len List.length seq map fst snd nth foldM].
  unfold test_step, series_drop, series_getitem.
  cbn [labels map fst existsb String.eqb Ascii.eqb Bool.eqb orb
       series_get filter negb bind to_dict fold_left dict_set snd].
  unfold predict, np_log.
  cbn [fold_left predict_step series_get].
  decide_R. cbn [np_greater bool_to_R]. unfold Req_bool. decide_R.
  cbn [bind correct false_positive true_positive predictions spam_labels
       app py_truediv Nat.add INR].
  eq_R.
Qed.

(** ** The correlation filter: which columns it drops *)

Lemma set_add_In (x a : string) (s : list string) :
  In x (set_add a s) <-> x = a \/ In x s.
Proof.
  unfold set_add. destruct (existsb (String.eqb a) s) eqn:E.
  - split; [now right|]. intros [->|H]; [|exact H].
    apply existsb_exists in E as [y [Hy Ey]].
    apply String.eqb_eq in Ey. now subst.
  - rewrite in_app_iff. cbn [In]. intuition.
Qed.

Lemma set_mem_In (x : string) (s : list string) :
  set_mem x s = true <-> In x s.
Proof.
  unfold set_mem. rewrite existsb_exists. split.
  - intros [y [Hy Ey]]. apply String.eqb_eq in Ey. now subst.
  - intros H. exists x. split; [exact H | apply String.eqb_refl].
Qed.

Section Collect.

Variables (A : Type) (hit : A -> bool) (name : A -> string).

Lemma collect_In (l : list A) (acc : list string) (x : string) :
  In x (fold_left (fun acc a => if hit a then set_add (name a) acc else acc)
                  l acc) <->
  In x acc \/ exists a, In a l /\ hit a = true /\ name a = x.
Proof.
  revert acc. induction l as [|a l IH]; intros acc; cbn [fold_left].
  - split; [now left|]. intros [H|(a & [] & _)]. exact H.
  - rewrite IH. split.
    + intros [H|(b & Hb & Hh & Hn)].
      * destruct (hit a) eqn:E.
        -- apply set_add_In in H as [->|H]; [|now left].
           right. exists a. cbn [In]. auto.
        -- now left.
      * right. exists b. cbn [In]. auto.
    + intros [H|(b & [<-|Hb] & Hh & Hn)].
      * left. destruct (hit a); [apply set_add_In; now right | exact H].
      * left. rewrite Hh. apply set_add_In. now left.
      * right. exists b. auto.
Qed.

End Collect.

Lemma nested_collect_In (hit : nat -> nat -> bool) (name : nat -> string)
    (l : list nat) (acc : list string) (x : string) :
  In x (fold_left
          (fun acc i =>
             fold_left
               (fun acc j => if hit i j then set_add (name i) acc else acc)
               (seq 0 i) acc)
          l acc) <->
  In x acc \/
  exists i j, In i l /\ (j < i)%nat /\ hit i j = true /\ name i = x.
Proof.
  revert acc. induction l as [|i l IH]; intros acc; cbn [fold_left].
  - split; [now left|]. intros [H|(i & j & [] & _)]. exact H.
  - rewrite IH.
    rewrite (collect_In nat (hit i) (fun _ => name i) (seq 0 i) acc x).
    split.
    + intros [[H|(j & Hj & Hh & Hn)]|(i' & j & Hi & Hj & Hh & Hn)].
      * now left.
      * right. exists i, j. apply in_seq in Hj. cbn [In].
        repeat split; auto; lia.
      * right. exists i', j. cbn [In]. auto.
    + intros [H|(i' & j & [<-|Hi] & Hj & Hh & Hn)].
      * left. now left.
      * left. right. exists j. rewrite in_seq. repeat split; auto; lia.
      * right. exists i', j. auto.
Qed.

Lemma iloc_corr_abs (data : DataFrame) (i j : nat)
    (ci cj : string * list R) :
  nth_error data i = Some ci -> nth_error data j = Some cj ->
  exceeds (iloc (corr_abs data) i j) = correlated (snd ci) (snd cj).
Proof.
  intros Hi Hj. unfold iloc, corr_abs, correlated.
  set (row := fun c : string * list R =>
                map (fun cj0 : string * list R =>
                       option_map Rabs (pearson (snd c) (snd cj0))) data).
  rewrite (nth_error_nth (map row data) i [] (x := row ci))
    by (rewrite nth_error_map, Hi; reflexivity).
  unfold row.
  rewrite (nth_error_nth _ j None
             (x := option_map Rabs (pearson (snd ci) (snd cj))))
    by (rewrite nth_error_map, Hj; reflexivity).
  reflexivity.
Qed.

(** A name is collected exactly when a column of that name correlates
    above the threshold with a column at a lower index. *)
Lemma correlated_features_In (data : DataFrame) (threshold : R)
    (x : string) :
  In x (correlated_features data threshold) <->
  exists i j ci cj,
    (j < i)%nat /\ nth_error data i = Some ci /\
    nth_error data j = Some cj /\
    correlated (snd ci) (snd cj) threshold = true /\ fst ci = x.
Proof.
  unfold correlated_features. rewrite nested_collect_In. split.
  - intros [[]|(i & j & Hi & Hj & Hh & Hn)].
    apply in_seq in Hi. unfold columns, labels in Hi.
    rewrite length_map in Hi.
    destruct (nth_error data i) as [ci|] eqn:Ei;
      [|apply nth_error_None in Ei; lia].
    destruct (nth_error data j) as [cj|] eqn:Ej;
      [|apply nth_error_None in Ej; lia].
    exists i, j, ci, cj. rewrite (iloc_corr_abs data i j ci cj Ei Ej) in Hh.
    repeat split; auto. rewrite <- Hn. unfold columns, labels.
    symmetry. apply nth_error_nth. now rewrite nth_error_map, Ei.
  - intros (i & j & ci & cj & Hj & Ei & Ej & Hc & Hn). right.
    exists i, j. rewrite (iloc_corr_abs data i j ci cj Ei Ej).
    repeat split; auto.
    + apply in_seq. unfold columns, labels. rewrite length_map.
      assert (i < List.length data)%nat
        by (apply nth_error_Some; congruence).
      lia.
    + rewrite <- Hn. unfold columns, labels.
      apply nth_error_nth. now rewrite nth_error_map, Ei.
Qed.

Lemma nodup_column_index (data : DataFrame) (i j : nat)
    (ci cj : string * list R) :
  NoDup (columns data) ->
  nth_error data i = Some ci -> nth_error data j = Some cj ->
  fst ci = fst cj -> i = j /\ ci = cj.
Proof.
  intros Hnd Hi Hj Hn.
  assert (i = j) as ->.
  { apply (proj1 (NoDup_nth_error (columns data)) Hnd).
    - unfold columns, labels. rewrite length_map.
      apply nth_error_Some. congruence.
    - unfold columns, labels. rewrite !nth_error_map, Hi, Hj. cbn.
      now rewrite Hn. }
  split; [reflexivity | congruence].
Qed.

Lemma remove_correlated_In (data : DataFrame) (threshold : R)
    (c : string * list R) :
  In c (remove_correlated data threshold) <->
  In c data /\ ~ In (fst c) (correlated_features data threshold).
Proof.
  unfold remove_correlated, drop_columns. rewrite filter_In.
  rewrite negb_true_iff, <- not_true_iff_false, set_mem_In. reflexivity.
Qed.

(** With distinct column names: the column at index [i] is dropped
    exactly when it correlates above the threshold with a column at a
    lower index, and kept exactly when it does so with none. *)
Lemma column_dropped_iff (data : DataFrame) (threshold : R) (i : nat)
    (c : string * list R) :
  NoDup (columns data) -> nth_error data i = Some c ->
  (~ In c (remove_correlated data threshold) <->
   exists j cj, (j < i)%nat /\ nth_error data j = Some cj /\
                correlated (snd c) (snd cj) threshold = true).
Proof.
  intros Hnd Hi. rewrite remove_correlated_In, correlated_features_In.
  split.
  - intros H.
    destruct (set_mem (fst c) (correlated_features data threshold)) eqn:E.
    + apply set_mem_In, correlated_features_In in E
        as (i' & j & ci & cj & Hj & Ei & Ej & Hc & Hn).
      destruct (nodup_column_index data i' i ci c Hnd Ei Hi Hn) as [-> ->].
      eauto.
    + exfalso. apply H. split; [now apply nth_error_In in Hi|].
      rewrite <- correlated_features_In, <- set_mem_In. congruence.
  - intros (j & cj & Hj & Ej & Hc) [_ H]. apply H.
    exists i, j, c, cj. auto.
Qed.

Lemma column_kept_iff (data : DataFrame) (threshold : R) (i : nat)
    (c : string * list R) :
  NoDup (columns data) -> nth_error data i = Some c ->
  (In c (remove_correlated data threshold) <->
   forall j cj, (j < i)%nat -> nth_error data j = Some cj ->
                correlated (snd c) (snd cj) threshold = false).
Proof.
  intros Hnd Hi. split.
  - intros H j cj Hj Ej. apply not_true_iff_false. intros Hc.
    apply (proj2 (column_dropped_iff data threshold i c Hnd Hi)); eauto.
  - intros H. rewrite remove_correlated_In, correlated_features_In.
    split; [now apply nth_error_In in Hi|].
    intros (i' & j & ci & cj & Hj & Ei & Ej & Hc & Hn).
    destruct (nodup_column_index data i' i ci c Hnd Ei Hi Hn) as [-> ->].
    rewrite (H j cj Hj Ej) in Hc. discriminate.
Qed.

(** ** Pearson's coefficient at the edges *)

Lemma ssqdm_nonneg (x : list R) : 0 <= ssqdm x.
Proof.
  unfold ssqdm. apply Rsum_nonneg. intros v Hv.
  apply in_map_iff in Hv as [w [<- _]]. apply Rle_0_sqr.
Qed.

Lemma pearson_zero_variance_l (x y : list R) :
  ssqdm x = 0 -> pearson x y = None.
Proof.
  intros H. unfold pearson. rewrite H, Rmult_0_l, sqrt_0.
  destruct (Req_dec_T 0 0); [reflexivity | contradiction].
Qed.

Lemma pearson_zero_variance_r (x y : list R) :
  ssqdm y = 0 -> pearson x y = None.
Proof.
  intros H. unfold pearson. rewrite H, Rmult_0_r, sqrt_0.
  destruct (Req_dec_T 0 0); [reflexivity | contradiction].
Qed.

Lemma correlated_zero_variance (x y : list R) (threshold : R) :
  ssqdm x = 0 \/ ssqdm y = 0 -> correlated x y threshold = false.
Proof.
  intros [H|H]; unfold correlated;
    [rewrite pearson_zero_variance_l | rewrite pearson_zero_variance_r];
    auto.
Qed.

Lemma covxy_self (x : list R) : covxy x x = ssqdm x.
Proof.
  unfold covxy, ssqdm. generalize (mean x) as m. intros m.
  induction x as [|v t IH]; cbn [combine map Rsum]; [reflexivity|].
  now rewrite IH.
Qed.

Lemma pearson_self (x : list R) : ssqdm x <> 0 -> pearson x x = Some 1.
Proof.
  intros H. pose proof (ssqdm_nonneg x) as Hnn.
  unfold pearson. rewrite covxy_self, sqrt_square by exact Hnn.
  destruct (Req_dec_T (ssqdm x) 0); [contradiction|].
  f_equal. now apply Rdiv_diag.
Qed.

Lemma correlated_self (x : list R) (threshold : R) :
  ssqdm x <> 0 -> threshold < 1 -> correlated x x threshold = true.
Proof.
  intros H Ht. unfold correlated. rewrite pearson_self by exact H.
  cbn [option_map exceeds]. rewrite Rabs_R1. apply Rgt_bool_true. lra.
Qed.

Lemma constant_column_ssqdm (x : list R) (a : R) :
  (forall v, In v x -> v = a) -> ssqdm x = 0.
Proof.
  intros H. unfold ssqdm.
  assert (Hm : x <> [] -> mean x = a).
  { intros Hne. unfold mean.
    assert (Hs : Rsum x = INR (List.length x) * a).
    { clear Hne. induction x as [|v t IH]; [cbn; lra|].
      cbn [Rsum]. rewrite IH by (intros; apply H; now right).
      rewrite (H v (or_introl eq_refl)). cbn [List.length].
      rewrite S_INR. ring. }
    rewrite Hs. field. apply not_0_INR. now destruct x. }
  destruct x as [|v t]; [reflexivity|].
  rewrite Hm by discriminate.
  generalize (v :: t), H. clear. intros l H.
  induction l as [|w l IH]; [reflexivity|]. cbn [map Rsum].
  rewrite IH by (intros; apply H; now right).
  rewrite (H w (or_introl eq_refl)). ring.
Qed.

(** ** C5: the correlation filter *)

Lemma zero_variance_kept (data : DataFrame) (threshold : R)
    (c : string * list R) :
  NoDup (columns data) -> In c data -> ssqdm (snd c) = 0 ->
  In c (remove_correlated data threshold).
Proof.
  intros Hnd Hin Hz. destruct (In_nth_error data c Hin) as [i Hi].
  apply (column_kept_iff data threshold i c Hnd Hi).
  intros j cj _ _. apply correlated_zero_variance. now left.
Qed.

Lemma correlated_iff (x y : list R) (threshold : R) :
  correlated x y threshold = true <->
  exists r, pearson x y = Some r /\ Rabs r > threshold.
Proof.
  unfold correlated. destruct (pearson x y) as [r|]; cbn [option_map exceeds].
  - rewrite Rgt_bool_true. split; [eauto|].
    intros (r' & Hr & H). now injection Hr as ->.
  - split; [discriminate|]. intros (r & Hr & _). discriminate.
Qed.


Lemma ssqdm_0_1 : ssqdm [0; 1] = 1 / 2.
Proof. unfold ssqdm, mean. cbn [map Rsum List.length INR]. field. Qed.

Lemma twins_nodup : NoDup (columns twins).
Proof.
  unfold columns, labels, twins. cbn [map fst].
  repeat constructor; cbn [In]; intuition discriminate.
Qed.


(** On [twins] the filter at 0.99 drops [address], the higher-indexed of
    the two identical features, and nothing else. *)
Example remove_correlated_twins :
  remove_correlated twins (99 / 100) =
    [("make", [0; 1]); ("spam", [0; 0])].
Proof.
  assert (Hmake : set_mem "make" (correlated_features twins (99 / 100))
                  = false).
  { apply not_true_iff_false. intros H.
    apply set_mem_In, correlated_features_In in H
      as (i & j & ci & cj & Hj & Ei & _ & _ & Hn).
    destruct (nodup_column_index twins i 0 ci ("make", [0; 1])
                twins_nodup Ei eq_refl Hn) as [-> _].
    lia. }
  assert (Haddress : set_mem "address" (correlated_features twins (99 / 100))
                     = true).
  { apply set_mem_In, correlated_features_In.
    exists 1%nat, 0%nat, ("address", [0; 1]), ("make", [0; 1]).
    repeat split; [lia|]. cbn [snd].
    apply correlated_self; [rewrite ssqdm_0_1|]; lra. }
  assert (Hspam : set_mem "spam" (correlated_features twins (99 / 100))
                  = false).
  { apply not_true_iff_false. intros H.
    apply set_mem_In, correlated_features_In in H
      as (i & j & ci & cj & _ & Ei & _ & Hc & Hn).
    destruct (nodup_column_index twins i 2 ci ("spam", [0; 0])
                twins_nodup Ei eq_refl Hn) as [_ ->].
    rewrite correlated_zero_variance in Hc; [discriminate|]. left.
    now apply (constant_column_ssqdm _ 0); intros v [<-|[<-|[]]]. }
  unfold remove_correlated, drop_columns, twins. cbn [filter fst].
  fold twins. now rewrite Hmake, Haddress, Hspam.
Qed.


(** ** C8: the label column takes part in the filter *)

Lemma label_column_In (feats : DataFrame) (label : list R)
    (result : DataFrame) :
  NoDup (columns (feats ++ [("spam", label)])) ->
  (forall c, In c result -> In c (feats ++ [("spam", label)])) ->
  (In "spam" (columns result) <-> In ("spam", label) result).
Proof.
  intros Hnd Hsub. split.
  - intros H. unfold columns, labels in H.
    apply in_map_iff in H as [c [Hn Hc]].
    destruct (In_nth_error _ _ (Hsub c Hc)) as [i Hi].
    assert (Hl : nth_error (feats ++ [("spam", label)]) (List.length feats)
                 = Some ("spam", label)).
    { rewrite nth_error_app2, Nat.sub_diag by lia. reflexivity. }
    destruct (nodup_column_index _ i (List.length feats) c ("spam", label)
                Hnd Hi Hl Hn) as [_ <-].
    exact Hc.
  - intros H. unfold columns, labels.
    change "spam" with (fst ("spam", label)). now apply in_map.
Qed.

(** C8.  The correlation matrix has a row and a column for every column
    of the table, the label included.  In a table [feats ++ [spam]] with
    distinct names, a feature is kept or dropped exactly as it would be
    without the label column, so none is dropped for correlating with
    the label; the label column itself is dropped exactly when its
    absolute correlation with some feature exceeds the threshold; and
    there is a Dataset ([label_twin], at the script's threshold 0.608)
    on which that happens, leaving no [spam] column in the result. *)
Theorem label_column_filtered :
  (forall (feats : DataFrame) (label : list R) (threshold : R),
     let data := feats ++ [("spam", label)] in
     NoDup (columns data) ->
     List.length (corr_abs data) = List.length (columns data) /\
     (forall row, In row (corr_abs data) ->
        List.length row = List.length (columns data)) /\
     (forall c, In c feats ->
        (In c (remove_correlated data threshold) <->
         In c (remove_correlated feats threshold))) /\
     (~ In "spam" (columns (remove_correlated data threshold)) <->
      exists c, In c feats /\ correlated label (snd c) threshold = true)) /\
  (exists (data : DataFrame) (threshold : R),
     is_dataset data /\
     (exists label c,
        series_get "spam" data = Some label /\
        In c (features_of data) /\
        correlated label (snd c) threshold = true) /\
     ~ In "spam" (columns (remove_correlated data threshold))).
Proof.
  assert (Hall : forall (feats : DataFrame) (label : list R) (threshold : R),
     let data := feats ++ [("spam", label)] in
     NoDup (columns data) ->
     List.length (corr_abs data) = List.length (columns data) /\
     (forall row, In row (corr_abs data) ->
        List.length row = List.length (columns data)) /\
     (forall c, In c feats ->
        (In c (remove_correlated data threshold) <->
         In c (remove_correlated feats threshold))) /\
     (~ In "spam" (columns (remove_correlated data threshold)) <->
      exists c, In c feats /\ correlated label (snd c) threshold = true)).
  { intros feats label threshold data Hnd.
    assert (Hndf : NoDup (columns feats)).
    { unfold data, columns, labels in Hnd. rewrite map_app in Hnd.
      now apply NoDup_app_remove_r in Hnd. }
    split; [|split; [|split]].
    - unfold corr_abs, columns, labels. now rewrite !length_map.
    - intros row Hrow. unfold corr_abs in Hrow.
      apply in_map_iff in Hrow as [c [<- _]].
      unfold columns, labels. now rewrite !length_map.
    - intros c Hc. destruct (In_nth_error feats c Hc) as [i Hi].
      assert (Hlt : (i < List.length feats)%nat)
        by (apply nth_error_Some; congruence).
      assert (Hid : nth_error data i = Some c)
        by (unfold data; now rewrite nth_error_app1).
      rewrite (column_kept_iff data threshold i c Hnd Hid).
      rewrite (column_kept_iff feats threshold i c Hndf Hi).
      split; intros H j cj Hj Ej; apply (H j cj Hj).
      + unfold data. rewrite nth_error_app1 by lia. exact Ej.
      + unfold data in Ej. rewrite nth_error_app1 in Ej by lia. exact Ej.
    - assert (Hl : nth_error data (List.length feats) = Some ("spam", label)).
      { unfold data. rewrite nth_error_app2, Nat.sub_diag by lia.
        reflexivity. }
      rewrite (label_column_In feats label _ Hnd)
        by (intros c Hc; now apply remove_correlated_In in Hc).
      rewrite (column_dropped_iff data threshold _ _ Hnd Hl). cbn [snd].
      split.
      + intros (j & cj & Hj & Ej & Hc). exists cj. split; [|exact Hc].
        unfold data in Ej. rewrite nth_error_app1 in Ej by lia.
        now apply nth_error_In in Ej.
      + intros (c & Hc & Hcorr).
        destruct (In_nth_error feats c Hc) as [j Hj].
        assert (Hlt : (j < List.length feats)%nat)
          by (apply nth_error_Some; congruence).
        exists j, c. split; [exact Hlt|]. split; [|exact Hcorr].
        unfold data. now rewrite nth_error_app1. }
  split; [exact Hall|].
  exists label_twin, (608 / 1000).
  assert (Hcorr : correlated [0; 1] [0; 1] (608 / 1000) = true).
  { apply correlated_self; [rewrite ssqdm_0_1|]; lra. }
  assert (Hnd : NoDup (columns label_twin)).
  { unfold columns, labels, label_twin. cbn [map fst].
    repeat constructor; cbn [In]; intuition discriminate. }
  split; [|split].
  - split; [|split].
    + intros c [<-|[<-|[]]]; reflexivity.
    + exact Hnd.
    + exists [0; 1]. reflexivity.
  - exists [0; 1], ("free", [0; 1]). split; [reflexivity|].
    split; [cbn; auto | exact Hcorr].
  - apply (Hall [("free", [0; 1])] [0; 1] (608 / 1000) Hnd).
    exists ("free", [0; 1]). split; [cbn; auto | exact Hcorr].
Qed.

Lemma label_column_filtered_witness :
  ~ In "spam" (columns (remove_correlated label_twin (608 / 1000))).
Proof.
  apply (proj1 label_column_filtered [("free", [0; 1])] [0; 1] (608 / 1000)).
  - unfold columns, labels. cbn [app map fst].
    repeat constructor; cbn [In]; intuition discriminate.
  - exists ("free", [0; 1]). split; [cbn; auto|]. cbn [snd].
    apply correlated_self; [rewrite ssqdm_0_1|]; lra.
Defined.

(** ** C9: filtering twice *)

Lemma filter_nth_error_order {A : Type} (f : A -> bool) (l : list A)
    (i' j' : nat) (a b : A) :
  (j' < i')%nat ->
  nth_error (filter f l) i' = Some a ->
  nth_error (filter f l) j' = Some b ->
  exists i j, (j < i)%nat /\ nth_error l i = Some a /\
              nth_error l j = Some b.
Proof.
  revert i' j'. induction l as [|x l IH]; intros i' j' Hlt Hi Hj.
  - destruct i'; discriminate.
  - cbn [filter] in Hi, Hj. destruct (f x).
    + destruct i' as [|i']; [lia|]. cbn [nth_error] in Hi.
      destruct j' as [|j'].
      * injection Hj as <-.
        apply nth_error_In, filter_In in Hi as [Hi _].
        destruct (In_nth_error l a Hi) as [i Ei].
        exists (S i), 0%nat. repeat split; [lia | exact Ei].
      * cbn [nth_error] in Hj.
        destruct (IH i' j' ltac:(lia) Hi Hj) as (i & j & H & Ei & Ej).
        exists (S i), (S j). repeat split; [lia | exact Ei | exact Ej].
    + destruct (IH i' j' Hlt Hi Hj) as (i & j & H & Ei & Ej).
      exists (S i), (S j). repeat split; [lia | exact Ei | exact Ej].
Qed.

Lemma filter_all {A : Type} (f : A -> bool) (l : list A) :
  (forall x, In x l -> f x = true) -> filter f l = l.
Proof.
  induction l as [|x l IH]; intros H; [reflexivity|].
  cbn [filter]. rewrite (H x (or_introl eq_refl)).
  now rewrite IH by (intros; apply H; now right).
Qed.

(** C9.  The filter is idempotent: applied with the same threshold to
    its own output it drops nothing and returns that output. *)
Theorem remove_correlated_idempotent (data : DataFrame) (threshold : R) :
  correlated_features (remove_correlated data threshold) threshold = [] /\
  remove_correlated (remove_correlated data threshold) threshold =
    remove_correlated data threshold.
Proof.
  assert (Hnone :
    correlated_features (remove_correlated data threshold) threshold = []).
  { destruct (correlated_features (remove_correlated data threshold)
                                  threshold) as [|x l] eqn:E;
      [reflexivity|].
    assert (Hx : In x (correlated_features
                         (remove_correlated data threshold) threshold))
      by (rewrite E; now left).
    apply correlated_features_In in Hx
      as (i' & j' & ci & cj & Hlt & Ei & Ej & Hc & _).
    assert (Hkept : In ci (remove_correlated data threshold))
      by now apply nth_error_In in Ei.
    apply remove_correlated_In in Hkept as [_ Hkept].
    exfalso. apply Hkept. apply correlated_features_In.
    unfold remove_correlated, drop_columns in Ei, Ej.
    destruct (filter_nth_error_order _ data i' j' ci cj Hlt Ei Ej)
      as (i & j & H & Hi & Hj).
    exists i, j, ci, cj. auto. }
  split; [exact Hnone|].
  unfold remove_correlated at 1. rewrite Hnone.
  unfold drop_columns. apply filter_all. reflexivity.
Qed.

(** ** C6: empty and one-class folds *)

Lemma train_no_rows (fold : DataFrame) (alpha : R) (label : list R) :
  series_get "spam" fold = Some label -> len fold = 0%nat ->
  train fold alpha = Raise ZeroDivisionError.
Proof.
  intros Hget Hlen. unfold train, getitem. rewrite Hget, Hlen. reflexivity.
Qed.

Lemma report_folds_raise (roc : list R -> list bool -> result R)
    (fold testing_data : DataFrame) (rest : list DataFrame) (alpha : R)
    (e : exn) :
  train fold alpha = Raise e ->
  report_folds roc (fold :: rest) testing_data alpha = ([], Some e).
Proof.
  intros H. cbn [report_folds]. unfold fold_report. now rewrite H.
Qed.

Lemma class_rows_other (label : list R) (c c' : R) :
  (forall v, In v label -> v = c) -> c <> c' -> label <> [] ->
  class_rows label c' = [].
Proof.
  intros Hall Hne Hnil. unfold class_rows.
  assert (H : forall l, (forall i, In i l -> (i < List.length label)%nat) ->
              filter (fun i => Req_bool (nth i label 0) c') l = []).
  { induction l as [|i l IH]; intros Hl; [reflexivity|].
    cbn [filter].
    rewrite (proj2 (Req_bool_false (nth i label 0) c')).
    - apply IH. intros j Hj. apply Hl. now right.
    - rewrite (Hall (nth i label 0)); [exact Hne|].
      apply nth_In. apply Hl. now left. }
  apply H. intros i Hi. apply in_seq in Hi. lia.
Qed.

Lemma train_one_class (fold : DataFrame) (alpha : R) (label : list R)
    (c c' : R) :
  is_dataset fold -> series_get "spam" fold = Some label ->
  len fold <> 0%nat ->
  (forall v, In v label -> v = c) -> c <> c' ->
  (c = 0 /\ c' = 1) \/ (c = 1 /\ c' = 0) ->
  INR (List.length (class_rows label c)) / INR (len fold) = 1 /\
  INR (List.length (class_rows label c')) / INR (len fold) = 0.
Proof.
  intros Hds Hget Hne Hall Hcc Hbin.
  destruct (dataset_label fold Hds) as (label' & Hget' & _ & Hlen & _).
  rewrite Hget in Hget'. injection Hget' as <-.
  assert (Hnil : label <> []).
  { intros ->. apply Hne. now rewrite <- Hlen. }
  assert (Hb : forall v, In v label -> v = 0 \/ v = 1).
  { intros v Hv. rewrite (Hall v Hv). destruct Hbin as [[-> _]|[-> _]]; auto. }
  pose proof (class_rows_binary label Hb) as Hsum.
  pose proof (class_rows_other label c c' Hall Hcc Hnil) as Hother.
  assert (Hc : List.length (class_rows label c) = len fold).
  { destruct Hbin as [[-> ->]|[-> ->]]; rewrite Hother in Hsum;
      cbn [List.length] in Hsum; lia. }
  rewrite Hc, Hother. cbn [List.length INR]. split.
  - apply Rdiv_diag. now apply not_0_INR.
  - unfold Rdiv. apply Rmult_0_l.
Qed.

(** C6 (as the code has it).  On a fold with its label column and no
    rows [train] raises [ZeroDivisionError]; the reporting loop has no
    handler, so the run ends there and neither that fold nor any later
    fold is reported.  A non-empty fold with one class only is not
    rejected: [train] returns the priors 1 and 0 (a spam-only fold) or 0
    and 1 (a non-spam-only fold) with the smoothed conditional
    probabilities, and the fold is evaluated like any other. *)
Theorem fold_failures (roc : list R -> list bool -> result R)
    (fold testing_data : DataFrame) (rest : list DataFrame) (alpha : R)
    (label : list R) :
  is_dataset fold ->
  series_get "spam" fold = Some label ->
  (len fold = 0%nat ->
     train fold alpha = Raise ZeroDivisionError /\
     report_folds roc (fold :: rest) testing_data alpha =
       ([], Some ZeroDivisionError)) /\
  (len fold <> 0%nat -> (forall v, In v label -> v = 1) ->
     train fold alpha =
       Ok (1, 0, smoothed label 1 (features_of fold) alpha,
           smoothed label 0 (features_of fold) alpha) /\
     fold_report roc fold testing_data alpha =
       test roc 1 0 (smoothed label 1 (features_of fold) alpha)
            (smoothed label 0 (features_of fold) alpha) testing_data) /\
  (len fold <> 0%nat -> (forall v, In v label -> v = 0) ->
     train fold alpha =
       Ok (0, 1, smoothed label 1 (features_of fold) alpha,
           smoothed label 0 (features_of fold) alpha) /\
     fold_report roc fold testing_data alpha =
       test roc 0 1 (smoothed label 1 (features_of fold) alpha)
            (smoothed label 0 (features_of fold) alpha) testing_data).
Proof.
  intros Hds Hget. split; [|split].
  - intros Hlen.
    pose proof (train_no_rows fold alpha label Hget Hlen) as Ht.
    split; [exact Ht | now apply report_folds_raise].
  - intros Hne Hall.
    assert (Ht : train fold alpha =
              Ok (1, 0, smoothed label 1 (features_of fold) alpha,
                  smoothed label 0 (features_of fold) alpha)).
    { rewrite (train_on_dataset fold alpha label Hds Hget Hne).
      destruct (train_one_class fold alpha label 1 0 Hds Hget Hne Hall)
        as [-> ->]; [lra | now right | reflexivity]. }
    split; [exact Ht|]. unfold fold_report. now rewrite Ht.
  - intros Hne Hall.
    assert (Ht : train fold alpha =
              Ok (0, 1, smoothed label 1 (features_of fold) alpha,
                  smoothed label 0 (features_of fold) alpha)).
    { rewrite (train_on_dataset fold alpha label Hds Hget Hne).
      destruct (train_one_class fold alpha label 0 1 Hds Hget Hne Hall)
        as [-> ->]; [lra | now left | reflexivity]. }
    split; [exact Ht|]. unfold fold_report. now rewrite Ht.
Qed.

Lemma empty_fold_is_dataset : is_dataset empty_fold.
Proof.
  split; [|split].
  - intros c [<-|[<-|[]]]; reflexivity.
  - unfold columns, labels, empty_fold. cbn [map fst].
    repeat constructor; cbn [In]; intuition discriminate.
  - exists []. reflexivity.
Qed.

Lemma fold_failures_witness :
  train empty_fold (9 / 100) = Raise ZeroDivisionError /\
  report_folds (fun _ _ => Ok (1 / 2)) [empty_fold; toy] toy (9 / 100) =
    ([], Some ZeroDivisionError).
Proof.
  apply (fold_failures (fun _ _ => Ok (1 / 2)) empty_fold toy [toy]
           (9 / 100) [] empty_fold_is_dataset).
  - reflexivity.
  - reflexivity.
Defined.

(** C6, the claim as written fails.  [all_spam_fold] has one class only,
    yet [train] raises nothing and returns the priors 1 and 0, and the
    loop prints that fold's report (every test row predicted spam).  And
    the empty fold ends the whole run: the fold after it, on which
    training and evaluation succeed, is never reported. *)
Lemma one_class_fold_reported :
  train all_spam_fold (9 / 100) =
    Ok (1, 0, [("free", Fin 1)], [("free", Fin 1)]) /\
  report_folds (fun _ _ => Ok (1 / 2)) [all_spam_fold] toy (9 / 100) =
    ([(2 / 3, 1 / 3, 2 / 3, 1 / 2)], None) /\
  report_folds (fun _ _ => Ok (1 / 2)) [empty_fold; toy] toy (9 / 100) =
    ([], Some ZeroDivisionError) /\
  (exists r, report_folds (fun _ _ => Ok (1 / 2)) [toy] toy (9 / 100) =
               ([r], None)).
Proof.
  assert (Ht : train all_spam_fold (9 / 100) =
                 Ok (1, 0, [("free", Fin 1)], [("free", Fin 1)])).
  { unfold all_spam_fold. run_train. eq_R. }
  split; [exact Ht|]. split; [|split].
  - cbn [report_folds]. unfold fold_report. rewrite Ht. cbn [bind].
    unfold test, toy, iterrows.
    cbn [len List.length seq map fst snd nth foldM].
    unfold test_step, series_drop, series_getitem.
    cbn [labels map fst existsb String.eqb Ascii.eqb Bool.eqb orb
         series_get filter negb bind to_dict fold_left dict_set snd].
    unfold predict, np_log.
    cbn [fold_left predict_step series_get String.eqb Ascii.eqb Bool.eqb].
    unfold np_log. decide_R.
    cbn [np_multiply np_add np_greater bool_to_R]. unfold Req_bool. decide_R.
    cbn [bind correct false_positive true_positive predictions spam_labels
         app py_truediv Nat.add INR].
    eq_R.
  - apply report_folds_raise. reflexivity.
  - cbn [report_folds]. unfold fold_report. rewrite train_toy. cbn [bind].
    unfold test. rewrite test_loop.
    2:{ intros row Hrow.
        destruct (iterrows_label toy [1; 0; 1] row eq_refl Hrow) as [i Hi].
        eauto. }
    cbn [bind len toy List.length py_truediv]. eexists. reflexivity.
Qed.

(** * Further properties of the code *)

(** ** When the trainer succeeds *)

Lemma series_get_None {A : Type} (s : Series A) (k : string) :
  series_get k s = None <-> ~ In k (labels s).
Proof.
  unfold labels. induction s as [|[k' v] t IH]; cbn [series_get map fst In].
  - tauto.
  - destruct (String.eqb k k') eqn:E.
    + apply String.eqb_eq in E. subst. split; [discriminate|tauto].
    + apply String.eqb_neq in E. rewrite IH. split; [|tauto].
      intros H [H1|H1]; [now apply E | now apply H].
Qed.

Lemma series_get_is_Some {A : Type} (s : Series A) (k : string) :
  In k (labels s) -> exists v, series_get k s = Some v.
Proof.
  intros H. destruct (series_get k s) as [v|] eqn:E; [eauto|].
  now apply series_get_None in E.
Qed.

(** [train] succeeds exactly on a frame that has a [spam] column and at
    least one row.  Without the column it raises [KeyError]; with the
    column and no row it raises [ZeroDivisionError].  Nothing else about
    the frame (labels, values, [alpha]) can make it fail. *)
Theorem train_outcome (train_data : DataFrame) (alpha : R) :
  match train train_data alpha with
  | Ok _ => In "spam" (columns train_data) /\ len train_data <> 0%nat
  | Raise e =>
      (e = KeyError "spam" /\ ~ In "spam" (columns train_data)) \/
      (e = ZeroDivisionError /\ In "spam" (columns train_data) /\
       len train_data = 0%nat)
  end.
Proof.
  unfold train, getitem.
  destruct (series_get "spam" train_data) as [label|] eqn:E; cbn [bind].
  - assert (Hin : In "spam" (columns train_data)).
    { destruct (in_dec string_dec "spam" (columns train_data)) as [H|H];
        [exact H|].
      apply series_get_None in H. congruence. }
    destruct (len train_data) as [|n] eqn:En; cbn [py_truediv bind].
    + right. auto.
    + split; [exact Hin | discriminate].
  - left. split; [reflexivity | now apply series_get_None].
Qed.

(** ** Scores at the edges *)

Lemma score_terms_In (probs : Series num) (email : dict) (t : num) :
  In t (score_terms probs email) ->
  exists word freq p,
    In (word, freq) email /\ series_get word probs = Some p /\
    t = np_multiply freq (np_log p).
Proof.
  unfold score_terms. intros H. apply in_flat_map in H as [[w f] [Hin Ht]].
  destruct (series_get w probs) as [p|] eqn:E; [|destruct Ht].
  destruct Ht as [<-|[]]. eauto 6.
Qed.

(** ** One-class folds *)

Lemma np_greater_low (x y : num) :
  x = NInf \/ x = NaN -> np_greater x y = false.
Proof. intros [-> | ->]; [now destruct y | reflexivity]. Qed.

Lemma add_from_low (terms : list num) (a : num) :
  a = NInf \/ a = NaN ->
  fold_left np_add terms a = NInf \/ fold_left np_add terms a = NaN.
Proof.
  revert a. induction terms as [|t terms IH]; intros a Ha.
  - exact Ha.
  - cbn [fold_left]. apply IH.
    destruct Ha as [-> | ->]; destruct t; cbn [np_add]; auto.
Qed.

(** A model trained on a non-empty fold whose rows are all non-spam has
    the spam prior 0 and never answers spam: for every email and every
    smoothing constant [predict] returns false.  The log of the zero prior
    is minus infinity; whatever is added to it, the spam score stays minus
    infinity or becomes NaN, and neither is greater than anything. *)
Theorem no_spam_fold_never_predicts_spam (fold : DataFrame) (alpha : R)
    (label : list R) :
  is_dataset fold ->
  series_get "spam" fold = Some label ->
  len fold <> 0%nat ->
  (forall v, In v label -> v = 0) ->
  exists prior_non_spam wsp wnsp,
    train fold alpha = Ok (0, prior_non_spam, wsp, wnsp) /\
    forall email, predict email 0 prior_non_spam wsp wnsp = false.
Proof.
  intros Hds Hget Hne Hall.
  pose proof (train_on_dataset fold alpha label Hds Hget Hne) as Ht.
  destruct (train_one_class fold alpha label 0 1 Hds Hget Hne Hall)
    as [_ H0]; [lra | now left |].
  rewrite H0 in Ht.
  do 3 eexists. split; [exact Ht|].
  intros email. rewrite predict_score. apply np_greater_low.
  unfold score. apply add_from_low. left. apply np_log_zero.
Qed.

Lemma no_spam_fold_is_dataset : is_dataset no_spam_fold.
Proof.
  split; [|split].
  - intros c [<-|[<-|[]]]; reflexivity.
  - unfold columns, labels, no_spam_fold. cbn [map fst].
    repeat constructor; cbn [In]; intuition discriminate.
  - exists [0; 0]. reflexivity.
Qed.

Lemma no_spam_fold_never_predicts_spam_witness :
  exists prior_non_spam wsp wnsp,
    train no_spam_fold (9 / 100) = Ok (0, prior_non_spam, wsp, wnsp) /\
    forall email, predict email 0 prior_non_spam wsp wnsp = false.
Proof.
  apply (no_spam_fold_never_predicts_spam no_spam_fold (9 / 100) [0; 0]
           no_spam_fold_is_dataset).
  - reflexivity.
  - cbn. discriminate.
  - intros v [<-|[<-|[]]]; reflexivity.
Defined.

(** ** The predictor at the edges *)

Lemma add_stays_low (terms : list num) (a : num) :
  (forall t, In t terms -> t <> PInf) ->
  a = NInf \/ a = NaN ->
  fold_left np_add terms a = NInf \/ fold_left np_add terms a = NaN.
Proof.
  revert a. induction terms as [|t terms IH]; intros a Hno Ha.
  - exact Ha.
  - cbn [fold_left]. apply IH; [intros; apply Hno; now right|].
    assert (t <> PInf) by (apply Hno; now left).
    destruct Ha as [-> | ->]; destruct t; cbn [np_add]; auto; contradiction.
Qed.

Lemma add_turns_low (terms : list num) (a : num) :
  (forall t, In t terms -> t <> PInf) ->
  a <> PInf ->
  (exists t, In t terms /\ (t = NInf \/ t = NaN)) ->
  fold_left np_add terms a = NInf \/ fold_left np_add terms a = NaN.
Proof.
  revert a. induction terms as [|t terms IH]; intros a Hno Ha (u & Hu & Hlow).
  - destruct Hu.
  - cbn [fold_left].
    assert (Hrest : forall v, In v terms -> v <> PInf)
      by (intros; apply Hno; now right).
    assert (Ht : t <> PInf) by (apply Hno; now left).
    destruct Hu as [<-|Hu].
    + apply add_stays_low; [exact Hrest|].
      destruct Hlow as [-> | ->]; destruct a; cbn [np_add]; auto;
        contradiction.
    + apply IH; [exact Hrest| |eauto].
      destruct a, t; cbn [np_add]; congruence.
Qed.

Lemma np_log_Fin_not_PInf (r : R) : np_log (Fin r) <> PInf.
Proof.
  unfold np_log. destruct (Rgt_dec r 0); [discriminate|].
  destruct (Req_dec_T r 0); discriminate.
Qed.

Lemma term_not_PInf (freq : R) (p : num) :
  0 <= freq -> p <> PInf -> np_multiply freq (np_log p) <> PInf.
Proof.
  intros Hf Hp. destruct p as [r| | |]; try contradiction;
    cbn [np_log np_multiply]; try discriminate.
  unfold np_log. destruct (Rgt_dec r 0); [discriminate|].
  destruct (Req_dec_T r 0); cbn [np_multiply]; [|discriminate].
  destruct (Rgt_dec freq 0); [discriminate|].
  destruct (Req_dec_T freq 0); [discriminate | lra].
Qed.

Lemma term_of_zero (freq : R) :
  0 <= freq ->
  np_multiply freq (np_log (Fin 0)) = NInf \/
  np_multiply freq (np_log (Fin 0)) = NaN.
Proof.
  intros Hf. rewrite np_log_zero. cbn [np_multiply].
  destruct (Rgt_dec freq 0); [now left|].
  destruct (Req_dec_T freq 0); [now right | lra].
Qed.

Lemma score_vetoed (email : dict) (prior : R) (probs : Series num)
    (word : string) (freq : R) :
  (forall w f, In (w, f) email -> 0 <= f) ->
  (forall w, series_get w probs <> Some PInf) ->
  In (word, freq) email ->
  series_get word probs = Some (Fin 0) ->
  score prior probs email = NInf \/ score prior probs email = NaN.
Proof.
  intros Hfreq Hinf Hin Hzero. unfold score.
  fold (score_terms probs email). apply add_turns_low.
  - intros t Ht. apply score_terms_In in Ht as (w & f & p & Hwf & Hp & ->).
    apply term_not_PInf; [now apply (Hfreq w f)|].
    intros ->. now apply (Hinf w).
  - apply np_log_Fin_not_PInf.
  - exists (np_multiply freq (np_log (Fin 0))). split.
    + unfold score_terms. apply in_flat_map. exists (word, freq).
      split; [exact Hin|]. rewrite Hzero. now left.
    + apply term_of_zero. now apply (Hfreq word freq).
Qed.

(** A word whose spam probability is exactly 0 (as training with
    [alpha = 0] can produce) vetoes spam: an email that has that word
    among its keys, whatever its frequency, zero included, is answered
    non-spam, whatever the other words and the non-spam score.  The
    frequencies are non-negative and no spam probability is plus
    infinity. *)
Theorem predict_zero_probability_word (email : dict)
    (prior_spam prior_non_spam : R) (wsp wnsp : Series num)
    (word : string) (freq : R) :
  (forall w f, In (w, f) email -> 0 <= f) ->
  (forall w, series_get w wsp <> Some PInf) ->
  In (word, freq) email ->
  series_get word wsp = Some (Fin 0) ->
  predict email prior_spam prior_non_spam wsp wnsp = false.
Proof.
  intros Hfreq Hinf Hin Hzero. rewrite predict_score.
  apply np_greater_low.
  apply (score_vetoed email prior_spam wsp word freq); assumption.
Qed.

Lemma predict_zero_probability_word_witness :
  predict [("free", 0); ("money", 5)] (1 / 2) (1 / 2)
          [("free", Fin 0); ("money", Fin 1)]
          [("free", Fin (1 / 2)); ("money", Fin (1 / 2))] = false.
Proof.
  apply (predict_zero_probability_word _ _ _ _ _ "free" 0).
  - intros w f [H|[H|[]]]; injection H as _ <-; lra.
  - intros w. cbn [series_get].
    destruct (String.eqb w "free"); [discriminate|].
    destruct (String.eqb w "money"); discriminate.
  - now left.
  - reflexivity.
Defined.

(** Training without smoothing ([alpha = 0]): a feature that never
    occurs in the spam rows, while other features do, gets the spam
    probability 0, and the trained model then answers non-spam for every
    email that lists that feature, as every row of a table does. *)
Theorem unsmoothed_zero_count_vetoes_spam (train_data : DataFrame)
    (label : list R) (f : string * list R) :
  is_dataset train_data ->
  series_get "spam" train_data = Some label ->
  len train_data <> 0%nat ->
  nonneg_features train_data ->
  In f (features_of train_data) ->
  class_sum label 1 (snd f) = 0 ->
  class_total label 1 (features_of train_data) <> 0 ->
  exists prior_spam prior_non_spam wsp wnsp,
    train train_data 0 = Ok (prior_spam, prior_non_spam, wsp, wnsp) /\
    series_get (fst f) wsp = Some (Fin 0) /\
    forall email,
      (forall w v, In (w, v) email -> 0 <= v) ->
      (exists v, In (fst f, v) email) ->
      predict email prior_spam prior_non_spam wsp wnsp = false.
Proof.
  intros Hds Hget Hne Hnn Hf Hs Ht.
  do 4 eexists.
  split; [apply (train_on_dataset train_data 0 label); assumption|].
  assert (Hden : class_total label 1 (features_of train_data)
                 + 0 * INR (List.length (features_of train_data)) <> 0)
    by (rewrite Rmult_0_l, Rplus_0_r; exact Ht).
  assert (Hzero : series_get (fst f)
                    (smoothed label 1 (features_of train_data) 0)
                  = Some (Fin 0)).
  { rewrite (series_get_smoothed train_data label 1 0 f Hds Hf).
    rewrite np_divide_fin by exact Hden. rewrite Hs.
    do 2 f_equal. unfold Rdiv. ring. }
  split; [exact Hzero|].
  intros email Hfreq [v Hv]. rewrite predict_score.
  apply np_greater_low.
  apply (score_vetoed email _ _ (fst f) v); try assumption.
  intros w Hw. apply series_get_Some_In in Hw. unfold smoothed in Hw.
  apply in_map_iff in Hw as [g [Hg _]]. injection Hg as _ Hg.
  rewrite np_divide_fin in Hg by exact Hden. discriminate.
Qed.

Lemma no_money_in_spam_is_dataset : is_dataset no_money_in_spam.
Proof.
  split; [|split].
  - intros c [<-|[<-|[<-|[]]]]; reflexivity.
  - unfold columns, labels, no_money_in_spam. cbn [map fst].
    repeat constructor; cbn [In]; intuition discriminate.
  - exists [1; 0; 1]. reflexivity.
Qed.

Lemma unsmoothed_zero_count_vetoes_spam_witness :
  exists prior_spam prior_non_spam wsp wnsp,
    train no_money_in_spam 0 = Ok (prior_spam, prior_non_spam, wsp, wnsp) /\
    series_get "money" wsp = Some (Fin 0).
Proof.
  destruct (unsmoothed_zero_count_vetoes_spam no_money_in_spam [1; 0; 1]
              ("money", [0; 3; 0]) no_money_in_spam_is_dataset)
    as (ps & pn & wsp & wnsp & Ht & Hz & _).
  - reflexivity.
  - cbn. discriminate.
  - intros c v [<-|[<-|[]]] Hv; cbn [snd In] in Hv;
      repeat (destruct Hv as [<-|Hv]; [lra|]); destruct Hv.
  - cbn. auto.
  - cbn [snd]. run_class_sum. lra.
  - run_class_sum. lra.
  - exists ps, pn, wsp, wnsp. split; assumption.
Defined.

(** ** The evaluator at the edges *)

Section EvaluatorEdges.

Variable roc_auc_score : list R -> list bool -> result R.
Variables (prior_spam prior_non_spam : R).
Variables (wsp wnsp : Series num).

Let prediction := row_prediction prior_spam prior_non_spam wsp wnsp.
Let right_ := is_correct prior_spam prior_non_spam wsp wnsp.
Let run_test := test roc_auc_score prior_spam prior_non_spam wsp wnsp.

Lemma length_iterrows (df : DataFrame) :
  List.length (iterrows df) = len df.
Proof. unfold iterrows. now rewrite length_map, length_seq. Qed.

Lemma test_step_unlabelled (st : tally) (row : Series R) :
  series_get "spam" row = None ->
  test_step prior_spam prior_non_spam wsp wnsp st row =
    Raise (KeyError "spam").
Proof.
  intros H. unfold test_step, series_drop.
  assert (E : existsb (String.eqb "spam") (labels row) = false).
  { apply not_true_iff_false. intros Hex.
    apply existsb_exists in Hex as [k [Hk Ek]].
    apply String.eqb_eq in Ek. subst k.
    now apply series_get_None in H. }
  now rewrite E.
Qed.

Lemma test_labelled (test_data : DataFrame) (label : list R) :
  series_get "spam" test_data = Some label ->
  run_test test_data =
    (auc <- roc_auc_score (map row_label (iterrows test_data))
                          (map prediction (iterrows test_data)) ;;
     acc <- py_truediv (count_rows right_ test_data) (len test_data) ;;
     fp_rate <- py_truediv
                  (count_rows (fun r => prediction r && negb (right_ r))
                              test_data) (len test_data) ;;
     tp_rate <- py_truediv
                  (count_rows (fun r => prediction r && right_ r)
                              test_data) (len test_data) ;;
     Ok (acc, fp_rate, tp_rate, auc)).
Proof.
  intros Hl. unfold run_test, test. rewrite test_loop.
  - reflexivity.
  - intros row Hrow.
    destruct (iterrows_label test_data label row Hl Hrow) as [i Hi]. eauto.
Qed.

Lemma test_unlabelled (test_data : DataFrame) :
  series_get "spam" test_data = None -> len test_data <> 0%nat ->
  run_test test_data = Raise (KeyError "spam").
Proof.
  intros Hl Hne. unfold run_test, test, iterrows.
  destruct (len test_data) as [|n]; [contradiction|].
  cbn [seq map foldM]. rewrite test_step_unlabelled; [reflexivity|].
  now rewrite (series_get_map (fun v => nth 0 v 0) test_data "spam"), Hl.
Qed.

Lemma test_no_rows (test_data : DataFrame) :
  len test_data = 0%nat ->
  run_test test_data =
    (auc <- roc_auc_score [] [] ;; Raise ZeroDivisionError).
Proof.
  intros H. unfold run_test, test, iterrows. rewrite H. reflexivity.
Qed.

(** [test] returns metrics exactly when the test set has a row and a
    [spam] column and the AUC routine returns.  On a test set without
    rows it never returns: after the AUC routine it divides by zero.  On
    a non-empty test set without the [spam] column it raises [KeyError]
    at the first row. *)
Theorem test_outcome (test_data : DataFrame) :
  let rows := iterrows test_data in
  let auc_call :=
    roc_auc_score (map row_label rows) (map prediction rows) in
  match run_test test_data with
  | Ok _ =>
      len test_data <> 0%nat /\ In "spam" (columns test_data) /\
      exists auc, auc_call = Ok auc
  | Raise e =>
      (len test_data <> 0%nat /\ ~ In "spam" (columns test_data) /\
       e = KeyError "spam") \/
      (len test_data = 0%nat /\
       (roc_auc_score [] [] = Raise e \/
        (e = ZeroDivisionError /\ exists auc, roc_auc_score [] [] = Ok auc)))
      \/
      (len test_data <> 0%nat /\ In "spam" (columns test_data) /\
       auc_call = Raise e)
  end.
Proof.
  intros rows auc_call.
  destruct (Nat.eq_dec (len test_data) 0) as [Hz|Hnz].
  - rewrite (test_no_rows test_data Hz).
    destruct (roc_auc_score [] []) as [auc|e] eqn:E; cbn [bind];
      right; left; split; eauto.
  - destruct (series_get "spam" test_data) as [label|] eqn:El.
    + assert (Hin : In "spam" (columns test_data)).
      { destruct (in_dec string_dec "spam" (columns test_data)) as [H|H];
          [exact H|].
        apply series_get_None in H. congruence. }
      rewrite (test_labelled test_data label El). fold rows. fold auc_call.
      destruct auc_call as [auc|e]; cbn [bind].
      * destruct (len test_data) as [|n]; [contradiction|].
        cbn [py_truediv bind]. eauto.
      * right. right. auto.
    + rewrite (test_unlabelled test_data El Hnz). left.
      split; [exact Hnz|]. split; [now apply series_get_None | reflexivity].
Qed.

Lemma filter_and_length {A : Type} (p q : A -> bool) (l : list A) :
  (List.length (filter (fun x => p x && q x) l)
   <= List.length (filter q l))%nat /\
  (List.length (filter q l)
   + List.length (filter (fun x => p x && negb (q x)) l)
   <= List.length l)%nat.
Proof.
  induction l as [|x l [IH1 IH2]]; [cbn; lia|].
  cbn [filter]. destruct (p x), (q x); cbn [andb negb List.length]; lia.
Qed.

(** Whatever the model and the labels, on a non-empty test set with a
    [spam] column on which the AUC routine returns, [test] returns
    metrics that are consistent: the true-positive rate is between 0 and
    the accuracy, the accuracy is at most 1, the false-positive rate is
    not negative, and accuracy and false-positive rate together are at
    most 1 (a row is never counted both as correct and as a false
    positive). *)
Theorem test_metrics_consistent (test_data : DataFrame) (auc : R) :
  In "spam" (columns test_data) ->
  len test_data <> 0%nat ->
  roc_auc_score (map row_label (iterrows test_data))
                (map prediction (iterrows test_data)) = Ok auc ->
  exists acc fp_rate tp_rate,
    run_test test_data = Ok (acc, fp_rate, tp_rate, auc) /\
    0 <= tp_rate <= acc /\ acc <= 1 /\ 0 <= fp_rate /\
    acc + fp_rate <= 1.
Proof.
  intros Hin Hne Hauc.
  destruct (series_get_is_Some test_data "spam" Hin) as [label El].
  rewrite (test_labelled test_data label El), Hauc. cbn [bind].
  destruct (len test_data) as [|n] eqn:En; [contradiction|].
  cbn [py_truediv bind]. do 3 eexists. split; [reflexivity|].
  unfold count_rows.
  destruct (filter_and_length prediction right_ (iterrows test_data))
    as [Htp Hsum].
  rewrite length_iterrows, En in Hsum.
  set (c := List.length (filter right_ (iterrows test_data))) in *.
  set (t := List.length (filter (fun r => prediction r && right_ r)
                                (iterrows test_data))) in *.
  set (f := List.length
              (filter (fun r => prediction r && negb (right_ r))
                      (iterrows test_data))) in *.
  assert (Hn : 0 < INR (S n)) by (apply lt_0_INR; lia).
  assert (Hinv : 0 < / INR (S n)) by now apply Rinv_0_lt_compat.
  apply le_INR in Htp. apply le_INR in Hsum. rewrite plus_INR in Hsum.
  pose proof (pos_INR t). pose proof (pos_INR f). pose proof (pos_INR c).
  assert (Hone : INR (S n) * / INR (S n) = 1) by (apply Rinv_r; lra).
  unfold Rdiv. repeat split; nra.
Qed.

(** On a non-empty test set with a [spam] column on which every row's
    prediction equals its label, [test] hands labels and predictions to
    the AUC routine; if the routine raises, so does [test]; if it returns
    [auc], [test] returns the accuracy 1, the false-positive rate 0, the
    share of the rows predicted spam as true-positive rate, and [auc]. *)
Theorem test_perfect_predictions (test_data : DataFrame) (label : list R) :
  series_get "spam" test_data = Some label ->
  len test_data <> 0%nat ->
  (forall row, In row (iterrows test_data) -> right_ row = true) ->
  run_test test_data =
    (auc <- roc_auc_score (map row_label (iterrows test_data))
                          (map prediction (iterrows test_data)) ;;
     Ok (1, 0,
         INR (count_rows prediction test_data) / INR (len test_data),
         auc)).
Proof.
  intros Hl Hne Hall. rewrite (test_labelled test_data label Hl).
  destruct (roc_auc_score _ _) as [auc|e]; cbn [bind]; [|reflexivity].
  unfold count_rows.
  rewrite (filter_all right_ (iterrows test_data) Hall), length_iterrows.
  assert (Hfp : filter (fun r => prediction r && negb (right_ r))
                       (iterrows test_data) = []).
  { assert (H : forall l, (forall r, In r l -> right_ r = true) ->
                filter (fun r => prediction r && negb (right_ r)) l = []).
    { induction l as [|r l IH]; intros H; [reflexivity|].
      cbn [filter]. rewrite (H r (or_introl eq_refl)), andb_false_r.
      apply IH. intros; apply H; now right. }
    now apply H. }
  assert (Htp : filter (fun r => prediction r && right_ r)
                       (iterrows test_data) =
                filter prediction (iterrows test_data)).
  { apply filter_ext_in. intros r Hr. rewrite (Hall r Hr).
    apply andb_true_r. }
  rewrite Hfp, Htp.
  destruct (len test_data) as [|n] eqn:En; [contradiction|].
  cbn [py_truediv bind List.length].
  do 2 f_equal. f_equal. f_equal.
  - apply Rdiv_diag. apply not_0_INR. lia.
  - cbn [INR]. unfold Rdiv. apply Rmult_0_l.
Qed.

End EvaluatorEdges.

Lemma test_metrics_consistent_witness :
  exists acc fp_rate tp_rate,
    test (fun _ _ => Ok (1 / 2)) 1 0 [] [] toy =
      Ok (acc, fp_rate, tp_rate, 1 / 2) /\
    0 <= tp_rate <= acc /\ acc <= 1 /\ 0 <= fp_rate /\
    acc + fp_rate <= 1.
Proof.
  apply (test_metrics_consistent (fun _ _ => Ok (1 / 2)) 1 0 [] [] toy).
  - cbn. auto.
  - cbn. discriminate.
  - reflexivity.
Defined.

Lemma test_perfect_predictions_witness :
  test roc_auc_hard (1 / 2) (1 / 2) [("free", Fin 1)] [("free", Fin 0)]
       two_rows =
    (auc <- roc_auc_hard
              (map row_label (iterrows two_rows))
              (map (row_prediction (1 / 2) (1 / 2)
                                   [("free", Fin 1)] [("free", Fin 0)])
                   (iterrows two_rows)) ;;
     Ok (1, 0,
         INR (count_rows (row_prediction (1 / 2) (1 / 2)
                                         [("free", Fin 1)] [("free", Fin 0)])
                         two_rows) / INR (len two_rows),
         auc)).
Proof.
  apply (test_perfect_predictions roc_auc_hard (1 / 2) (1 / 2)
           [("free", Fin 1)] [("free", Fin 0)] two_rows [1; 0]).
  - reflexivity.
  - cbn. discriminate.
  - intros row Hrow. unfold iterrows, two_rows in Hrow.
    cbn [len List.length seq map fst snd nth In] in Hrow.
    unfold is_correct, row_prediction, row_label.
    destruct Hrow as [<-|[<-|[]]];
      cbn [filter fst snd String.eqb Ascii.eqb Bool.eqb negb to_dict
           fold_left dict_set series_get];
      unfold predict, np_log;
      cbn [fold_left predict_step series_get String.eqb Ascii.eqb Bool.eqb];
      unfold np_log; decide_R;
      cbn [np_multiply]; decide_R;
      cbn [np_add np_greater bool_to_R];
      apply Req_bool_true; reflexivity.
Defined.

(** ** More on the correlation filter *)

Lemma correlated_antitone (x y : list R) (t t' : R) :
  t <= t' -> correlated x y t' = true -> correlated x y t = true.
Proof.
  intros Hle H. apply correlated_iff in H as (r & Hr & Hgt).
  apply correlated_iff. exists r. split; [exact Hr | lra].
Qed.

(** Raising the threshold never drops more: a column that the filter
    keeps at a threshold is kept at every higher threshold. *)
Theorem remove_correlated_monotone (data : DataFrame) (t t' : R)
    (c : string * list R) :
  t <= t' ->
  In c (remove_correlated data t) -> In c (remove_correlated data t').
Proof.
  intros Hle Hin. apply remove_correlated_In in Hin as [Hc Hnot].
  apply remove_correlated_In. split; [exact Hc|].
  intros H. apply Hnot.
  apply correlated_features_In in H
    as (i & j & ci & cj & Hj & Ei & Ej & Hcorr & Hn).
  apply correlated_features_In. exists i, j, ci, cj.
  repeat split; try assumption.
  now apply (correlated_antitone _ _ t t').
Qed.

Lemma remove_correlated_monotone_witness :
  In ("make", [0; 1]) (remove_correlated twins 1).
Proof.
  apply (remove_correlated_monotone twins (99 / 100) 1).
  - lra.
  - rewrite remove_correlated_twins. now left.
Defined.

Lemma covxy_sym (x y : list R) : covxy x y = covxy y x.
Proof.
  unfold covxy. generalize (mean x) (mean y). intros mx my.
  revert y. induction x as [|a x IH]; intros [|b y]; try reflexivity.
  cbn [combine map Rsum]. rewrite IH. ring.
Qed.

Lemma pearson_sym (x y : list R) : pearson x y = pearson y x.
Proof.
  unfold pearson. rewrite covxy_sym, (Rmult_comm (ssqdm x)). reflexivity.
Qed.

Lemma correlated_sym (x y : list R) (t : R) :
  correlated x y t = correlated y x t.
Proof. unfold correlated. now rewrite pearson_sym. Qed.

Lemma filtered_collects_nothing (data : DataFrame) (threshold : R) :
  correlated_features (remove_correlated data threshold) threshold = [].
Proof.
  destruct (correlated_features (remove_correlated data threshold)
                                threshold) as [|x l] eqn:E;
    [reflexivity|].
  assert (Hx : In x (correlated_features
                       (remove_correlated data threshold) threshold))
    by (rewrite E; now left).
  apply correlated_features_In in Hx
    as (i' & j' & ci & cj & Hlt & Ei & Ej & Hc & _).
  assert (Hkept : In ci (remove_correlated data threshold))
    by now apply nth_error_In in Ei.
  apply remove_correlated_In in Hkept as [_ Hkept].
  exfalso. apply Hkept. apply correlated_features_In.
  unfold remove_correlated, drop_columns in Ei, Ej.
  destruct (filter_nth_error_order _ data i' j' ci cj Hlt Ei Ej)
    as (i & j & H & Hi & Hj).
  exists i, j, ci, cj. auto.
Qed.

(** The output of the filter is decorrelated: no two columns at distinct
    positions of the filtered table have an absolute correlation above
    the threshold, in either order (the correlation is symmetric). *)
Theorem remove_correlated_decorrelates (data : DataFrame) (threshold : R)
    (i j : nat) (ci cj : string * list R) :
  i <> j ->
  nth_error (remove_correlated data threshold) i = Some ci ->
  nth_error (remove_correlated data threshold) j = Some cj ->
  correlated (snd ci) (snd cj) threshold = false /\
  pearson (snd ci) (snd cj) = pearson (snd cj) (snd ci).
Proof.
  intros Hij Ei Ej. split; [|apply pearson_sym].
  pose proof (filtered_collects_nothing data threshold) as Hnone.
  apply not_true_iff_false. intros Hc.
  assert (Hin : exists x,
            In x (correlated_features (remove_correlated data threshold)
                                      threshold)).
  { destruct (Nat.lt_ge_cases j i) as [Hlt|Hge].
    - exists (fst ci). apply correlated_features_In.
      exists i, j, ci, cj. auto.
    - exists (fst cj). apply correlated_features_In.
      exists j, i, cj, ci. rewrite correlated_sym.
      repeat split; auto; lia. }
  destruct Hin as [x Hx]. rewrite Hnone in Hx. destruct Hx.
Qed.

Lemma remove_correlated_decorrelates_witness :
  correlated [0; 1] [0; 0] (99 / 100) = false.
Proof.
  apply (remove_correlated_decorrelates twins (99 / 100) 0 1
           ("make", [0; 1]) ("spam", [0; 0])).
  - discriminate.
  - now rewrite remove_correlated_twins.
  - now rewrite remove_correlated_twins.
Defined.

(** ** Pearson's coefficient is at most 1 in absolute value *)







(** In a table with distinct column names the first column is never
    dropped, so the filtered table of a non-empty table is not empty and
    has as many rows as the input. *)
Theorem remove_correlated_keeps_first (data : DataFrame) (threshold : R)
    (c : string * list R) (rest : DataFrame) :
  NoDup (columns data) -> data = c :: rest ->
  (exists kept, remove_correlated data threshold = c :: kept) /\
  len (remove_correlated data threshold) = len data.
Proof.
  intros Hnd ->.
  assert (Hin : In c (remove_correlated (c :: rest) threshold)).
  { apply (column_kept_iff (c :: rest) threshold 0 c Hnd eq_refl).
    intros j cj Hj. lia. }
  apply remove_correlated_In in Hin as [_ Hnot].
  assert (Hkeep : set_mem (fst c)
                    (correlated_features (c :: rest) threshold) = false).
  { apply not_true_iff_false. intros H. now apply set_mem_In in H. }
  unfold remove_correlated, drop_columns. cbn [filter].
  rewrite Hkeep. cbn [negb].
  split; [eauto|]. now destruct c.
Qed.

Lemma remove_correlated_keeps_first_witness :
  len (remove_correlated twins (99 / 100)) = len twins.
Proof.
  apply (remove_correlated_keeps_first twins (99 / 100) ("make", [0; 1])
           [("address", [0; 1]); ("spam", [0; 0])] twins_nodup eq_refl).
Defined.

(** ** The train/test split *)

Lemma train_size_floor (data : DataFrame) :
  train_size data = (4 * len data / 5)%nat.
Proof.
  unfold train_size. set (n := len data). set (k := (4 * n / 5)%nat).
  assert (Hlo : (5 * k <= 4 * n)%nat) by apply Nat.Div0.mul_div_le.
  assert (Hhi : (4 * n < 5 * k + 5)%nat).
  { pose proof (Nat.div_mod_eq (4 * n) 5) as Hdm. fold k in Hdm.
    pose proof (Nat.mod_upper_bound (4 * n) 5). lia. }
  apply le_INR in Hlo. apply lt_INR in Hhi.
  rewrite !plus_INR, !mult_INR in *. cbn [INR] in *.
  rewrite <- (Int_part_spec (8 / 10 * INR n) (Z.of_nat k)).
  - apply Nat2Z.id.
  - rewrite <- INR_IZR_INZ. lra.
Qed.

Lemma concat_split (k : nat) (data : DataFrame) :
  concat_rows (slice_rows 0 k data) (rows_from k data) = data.
Proof.
  unfold concat_rows, slice_rows, rows_from.
  induction data as [|[name v] t IH]; [reflexivity|].
  cbn [map combine fst snd]. rewrite IH. unfold slice.
  rewrite Nat.sub_0_r. cbn [skipn]. now rewrite firstn_skipn.
Qed.

(** The script splits the table at [int(0.8 * n)], the integer part of
    four fifths of the number of rows: the first rows are the training
    set, the remaining ones the test set, and the two together are the
    table again.  The test set has a row whenever the table has one; the
    training set has a row whenever the table has two. *)
Theorem split_partition (data : DataFrame) :
  let n := len data in
  let training_data := slice_rows 0 (train_size data) data in
  let testing_data := rows_from (train_size data) data in
  train_size data = (4 * n / 5)%nat /\
  len training_data = train_size data /\
  len testing_data = (n - train_size data)%nat /\
  concat_rows training_data testing_data = data /\
  (n <> 0%nat -> len testing_data <> 0%nat) /\
  ((2 <= n)%nat -> len training_data <> 0%nat).
Proof.
  intros n training_data testing_data.
  pose proof (train_size_floor data) as Hk. fold n in Hk.
  assert (Hle : (train_size data <= n)%nat).
  { rewrite Hk. apply Nat.Div0.div_le_upper_bound. lia. }
  assert (Htrain : len training_data = train_size data).
  { unfold training_data. rewrite len_slice_rows by exact Hle. lia. }
  assert (Htest : len testing_data = (n - train_size data)%nat).
  { unfold testing_data, rows_from, n. destruct data as [|[name v] t].
    - cbn. lia.
    - cbn [map len fst snd]. now rewrite length_skipn. }
  split; [exact Hk|]. split; [exact Htrain|]. split; [exact Htest|].
  split; [|split].
  - apply concat_split.
  - intros Hn. rewrite Htest, Hk.
    assert (4 * n / 5 < n)%nat
      by (apply Nat.Div0.div_lt_upper_bound; lia).
    lia.
  - intros Hn. rewrite Htrain, Hk.
    assert (1 <= 4 * n / 5)%nat
      by (apply Nat.div_le_lower_bound; lia).
    lia.
Qed.

(** ** Folds that can be trained on *)

Lemma columns_slice_rows (a b : nat) (df : DataFrame) :
  columns (slice_rows a b df) = columns df.
Proof.
  unfold columns, labels, slice_rows. rewrite map_map. reflexivity.
Qed.

Lemma train_returns (df : DataFrame) (alpha : R) :
  In "spam" (columns df) -> len df <> 0%nat ->
  exists m, train df alpha = Ok m.
Proof.
  intros Hin Hne. destruct (series_get_is_Some df "spam" Hin) as [label Hl].
  unfold train, getitem. rewrite Hl. cbn [bind].
  destruct (len df) as [|n]; [contradiction|].
  cbn [py_truediv bind]. eauto.
Qed.

Lemma train_zero_division (df : DataFrame) (alpha : R) :
  In "spam" (columns df) -> len df = 0%nat ->
  train df alpha = Raise ZeroDivisionError.
Proof.
  intros Hin Hz. destruct (series_get_is_Some df "spam" Hin) as [label Hl].
  now apply (train_no_rows df alpha label).
Qed.

Lemma folds_facts (training_data fold : DataFrame) :
  In fold (folds training_data) ->
  columns fold = columns training_data /\
  len fold = (len training_data / 5)%nat.
Proof.
  intros Hin. rewrite folds_unfold in Hin. cbv zeta in Hin.
  assert (H : (5 * (len training_data / 5) <= len training_data)%nat)
    by apply Nat.Div0.mul_div_le.
  cbn [In] in Hin.
  repeat (destruct Hin as [<-|Hin];
          [split; [apply columns_slice_rows
                  | rewrite len_slice_rows by lia; lia]|]).
  destruct Hin.
Qed.

(** With a [spam] column in the training set: if it has at least 5 rows,
    [train] succeeds on every one of the five folds; if it has fewer, all
    five folds are empty and [train] raises [ZeroDivisionError] on each
    of them. *)
Theorem folds_trainable (training_data : DataFrame) (alpha : R) :
  In "spam" (columns training_data) ->
  ((5 <= len training_data)%nat ->
   forall fold, In fold (folds training_data) ->
     exists m, train fold alpha = Ok m) /\
  ((len training_data < 5)%nat ->
   forall fold, In fold (folds training_data) ->
     len fold = 0%nat /\ train fold alpha = Raise ZeroDivisionError).
Proof.
  intros Hspam. split; intros Hn fold Hfold;
    destruct (folds_facts training_data fold Hfold) as [Hc Hl].
  - apply train_returns; [now rewrite Hc|]. rewrite Hl.
    assert (1 <= len training_data / 5)%nat
      by (apply Nat.div_le_lower_bound; lia).
    lia.
  - assert (Hz : len fold = 0%nat)
      by (rewrite Hl; now apply Nat.div_small).
    split; [exact Hz|]. apply train_zero_division; [now rewrite Hc|exact Hz].
Qed.

Lemma folds_trainable_witness :
  len (nth 0 (folds toy) []) = 0%nat /\
  train (nth 0 (folds toy) []) (9 / 100) = Raise ZeroDivisionError.
Proof.
  apply (folds_trainable toy (9 / 100)).
  - cbn. auto.
  - cbn. lia.
  - rewrite folds_unfold. now left.
Defined.

(** ** The reporting loop *)

(** The reporting loop prints at most one report per fold.  The printed
    reports are those of the first folds, in order, each the result of
    training on that fold and evaluating on the test set.  The run ends
    without exception exactly when every fold was reported; otherwise the
    exception is the one raised for the first fold that is not reported,
    and no fold after it is run. *)
Theorem report_folds_prefix (roc : list R -> list bool -> result R)
    (fs : list DataFrame) (testing_data : DataFrame) (alpha : R) :
  let printed := fst (report_folds roc fs testing_data alpha) in
  let status := snd (report_folds roc fs testing_data alpha) in
  (List.length printed <= List.length fs)%nat /\
  (status = None <-> List.length printed = List.length fs) /\
  (forall i r, nth_error printed i = Some r ->
     exists fold, nth_error fs i = Some fold /\
                  fold_report roc fold testing_data alpha = Ok r) /\
  (forall e, status = Some e <->
     exists fold, nth_error fs (List.length printed) = Some fold /\
                  fold_report roc fold testing_data alpha = Raise e).
Proof.
  induction fs as [|fold fs IH]; cbn [report_folds].
  - cbn [fst snd List.length]. repeat split; try lia; try easy.
    + intros i r H. destruct i; discriminate.
    + intros (f & H & _). discriminate.
  - destruct (fold_report roc fold testing_data alpha) as [r|e] eqn:E.
    + destruct (report_folds roc fs testing_data alpha) as [printed status].
      cbn [fst snd List.length] in *.
      destruct IH as (H1 & H2 & H3 & H4).
      split; [lia|]. split; [|split].
      * rewrite H2. lia.
      * intros [|i] r' Hi; cbn [nth_error] in *.
        -- injection Hi as <-. eauto.
        -- now apply H3.
      * intros e. cbn [nth_error]. apply H4.
    + cbn [fst snd List.length nth_error]. split; [lia|].
      split; [split; [discriminate | lia]|]. split.
      * intros i r H. destruct i; discriminate.
      * intros e'. split.
        -- intros H. injection H as <-. eauto.
        -- intros (f & Hf & He). injection Hf as <-. congruence.
Qed.

(** ** The whole script *)

Lemma len_remove_correlated (data : DataFrame) (threshold : R) :
  NoDup (columns data) -> len (remove_correlated data threshold) = len data.
Proof.
  intros Hnd. destruct data as [|c rest]; [reflexivity|].
  assert (Hin : In c (remove_correlated (c :: rest) threshold)).
  { apply (column_kept_iff (c :: rest) threshold 0 c Hnd eq_refl).
    intros j cj Hj. lia. }
  apply remove_correlated_In in Hin as [_ Hnot].
  assert (Hkeep : set_mem (fst c)
                    (correlated_features (c :: rest) threshold) = false).
  { apply not_true_iff_false. intros H. now apply set_mem_In in H. }
  unfold remove_correlated, drop_columns. cbn [filter].
  rewrite Hkeep. cbn [negb]. now destruct c.
Qed.

Section ScriptProperties.

Variable roc_auc_score : list R -> list bool -> result R.
Variable sample : DataFrame -> DataFrame.

(** The shuffle permutes rows: it keeps the columns and the row count. *)
Hypothesis sample_columns : forall d, columns (sample d) = columns d.
Hypothesis sample_len : forall d, len (sample d) = len d.

Let run := script roc_auc_score sample.

Lemma first_fold (training_data : DataFrame) :
  exists first rest,
    folds training_data = first :: rest /\
    columns first = columns training_data /\
    len first = (len training_data / 5)%nat.
Proof.
  pose proof (folds_unfold training_data) as H. cbv zeta in H.
  do 2 eexists. split; [exact H|].
  apply folds_facts. rewrite H. now left.
Qed.

(** If the label correlates above 0.608 with some feature of the loaded
    table, the filter drops the [spam] column and the script ends with
    [KeyError] in the first call of [train], before any report. *)
Theorem script_label_dropped (feats : DataFrame) (label : list R)
    (c : string * list R) :
  NoDup (columns (feats ++ [("spam", label)])) ->
  In c feats ->
  correlated label (snd c) (608 / 1000) = true ->
  run (feats ++ [("spam", label)]) = ([], Some (KeyError "spam")).
Proof.
  intros Hnd Hc Hcorr. unfold run, script.
  set (csv := feats ++ [("spam", label)]) in *.
  set (data := sample (remove_correlated csv (608 / 1000))).
  assert (Hgone : ~ In "spam" (columns data)).
  { unfold data. rewrite sample_columns.
    rewrite (label_column_In feats label _ Hnd)
      by (intros x Hx; now apply remove_correlated_In in Hx).
    assert (Hl : nth_error csv (List.length feats) = Some ("spam", label)).
    { unfold csv. rewrite nth_error_app2, Nat.sub_diag by lia.
      reflexivity. }
    apply (column_dropped_iff csv _ _ _ Hnd Hl).
    destruct (In_nth_error feats c Hc) as [j Hj].
    assert (j < List.length feats)%nat
      by (apply nth_error_Some; congruence).
    exists j, c. split; [assumption|]. split; [|exact Hcorr].
    unfold csv. now rewrite nth_error_app1. }
  destruct (first_fold (slice_rows 0 (train_size data) data))
    as (first & rest & -> & Hcols & _).
  apply report_folds_raise.
  unfold train, getitem.
  rewrite (proj2 (series_get_None first "spam")); [reflexivity|].
  fold (columns first). now rewrite Hcols, columns_slice_rows.
Qed.

(** If the [spam] column survives the filter and the loaded table has
    at most 6 rows, the training set has fewer than 5 rows, the folds are
    empty and the script ends with [ZeroDivisionError] in the first call
    of [train], before any report. *)
Theorem script_too_few_rows (csv : DataFrame) :
  NoDup (columns csv) ->
  In "spam" (columns (remove_correlated csv (608 / 1000))) ->
  (len csv <= 6)%nat ->
  run csv = ([], Some ZeroDivisionError).
Proof.
  intros Hnd Hspam Hn. unfold run, script.
  set (data := sample (remove_correlated csv (608 / 1000))).
  assert (Hlen : len data = len csv).
  { unfold data. rewrite sample_len. now apply len_remove_correlated. }
  assert (Hk : (train_size data < 5)%nat).
  { rewrite train_size_floor, Hlen.
    apply Nat.Div0.div_lt_upper_bound. lia. }
  assert (Hkl : (train_size data <= len data)%nat).
  { rewrite train_size_floor. apply Nat.Div0.div_le_upper_bound. lia. }
  destruct (first_fold (slice_rows 0 (train_size data) data))
    as (first & rest & -> & Hcols & Hl).
  apply report_folds_raise. apply train_zero_division.
  - rewrite Hcols, columns_slice_rows. unfold data.
    now rewrite sample_columns.
  - rewrite Hl, len_slice_rows by exact Hkl.
    apply Nat.div_small. lia.
Qed.

End ScriptProperties.

Lemma script_label_dropped_witness :
  script (fun _ _ => Ok 1) (fun d => d) label_twin =
    ([], Some (KeyError "spam")).
Proof.
  apply (script_label_dropped (fun _ _ => Ok 1) (fun d => d)
           (fun d => eq_refl) [("free", [0; 1])] [0; 1] ("free", [0; 1])).
  - unfold columns, labels. cbn [app map fst].
    repeat constructor; cbn [In]; intuition discriminate.
  - now left.
  - cbn [snd]. apply correlated_self; [rewrite ssqdm_0_1|]; lra.
Defined.

Lemma script_too_few_rows_witness :
  script (fun _ _ => Ok 1) (fun d => d) twins =
    ([], Some ZeroDivisionError).
Proof.
  apply (script_too_few_rows (fun _ _ => Ok 1) (fun d => d)
           (fun d => eq_refl) (fun d => eq_refl) twins twins_nodup).
  - change "spam" with (fst ("spam", [0; 0])). apply in_map.
    apply zero_variance_kept; [exact twins_nodup | cbn; auto |].
    now apply (constant_column_ssqdm _ 0); intros v [<-|[<-|[]]].
  - cbn. lia.
Defined.

(** ** The email of a row *)

Lemma dict_set_fresh (k : string) (v : R) (d : dict) :
  ~ In k (labels d) -> dict_set k v d = d ++ [(k, v)].
Proof.
  unfold labels. induction d as [|[k' v'] t IH]; intros H.
  - reflexivity.
  - cbn [dict_set map fst In app] in *.
    destruct (String.eqb k k') eqn:E.
    + apply String.eqb_eq in E. subst. tauto.
    + rewrite IH by tauto. reflexivity.
Qed.

Lemma to_dict_from (s : Series R) (acc : dict) :
  NoDup (labels (acc ++ s)) ->
  fold_left (fun d c => dict_set (fst c) (snd c) d) s acc = acc ++ s.
Proof.
  revert acc. induction s as [|[k v] s IH]; intros acc Hnd.
  - now rewrite app_nil_r.
  - cbn [fold_left fst snd].
    assert (Hfresh : ~ In k (labels acc)).
    { unfold labels in *. rewrite map_app in Hnd. cbn [map fst] in Hnd.
      apply NoDup_remove_2 in Hnd. intros H. apply Hnd.
      apply in_or_app. now left. }
    rewrite (dict_set_fresh k v acc Hfresh).
    rewrite IH; rewrite <- app_assoc; [reflexivity | exact Hnd].
Qed.

Lemma labels_iterrows (df : DataFrame) (row : Series R) :
  In row (iterrows df) -> labels row = columns df.
Proof.
  unfold iterrows. intros H. apply in_map_iff in H as [i [<- _]].
  unfold labels, columns, labels. now rewrite map_map.
Qed.

(** In a table with distinct column names that has a [spam] column, the
    email that [test] hands to [predict] for a row is the row without its
    [spam] entry: one item per other column, in column order, each with
    the row's value, zero values included. *)
Theorem email_of_row (df : DataFrame) (row : Series R) :
  NoDup (columns df) ->
  In "spam" (columns df) ->
  In row (iterrows df) ->
  labels row = columns df /\
  (features <- series_drop "spam" row ;; Ok (to_dict features)) =
    Ok (filter (fun c => negb (String.eqb "spam" (fst c))) row).
Proof.
  intros Hnd Hspam Hrow.
  pose proof (labels_iterrows df row Hrow) as Hl.
  split; [exact Hl|]. unfold series_drop.
  assert (E : existsb (String.eqb "spam") (labels row) = true).
  { apply existsb_exists. exists "spam". rewrite Hl.
    split; [exact Hspam | apply String.eqb_refl]. }
  rewrite E. cbn [bind]. f_equal. unfold to_dict.
  rewrite to_dict_from; [reflexivity|]. cbn [app].
  rewrite <- Hl in Hnd. clear - Hnd. unfold labels in *.
  induction row as [|c row IH]; [constructor|].
  cbn [map] in Hnd. inversion Hnd as [|? ? Hc Hrest]; subst.
  cbn [filter]. destruct (negb (String.eqb "spam" (fst c))).
  - cbn [map]. constructor; [|now apply IH].
    intros H. apply Hc. apply in_map_iff in H as [x [Hx Hin]].
    apply filter_In in Hin as [Hin _]. rewrite <- Hx. now apply in_map.
  - now apply IH.
Qed.

Lemma email_of_row_witness :
  (features <- series_drop "spam" [("free", 2); ("money", 1); ("spam", 1)] ;;
   Ok (to_dict features)) =
    Ok (filter (fun c => negb (String.eqb "spam" (fst c)))
               [("free", 2); ("money", 1); ("spam", 1)]).
Proof.
  apply (email_of_row toy [("free", 2); ("money", 1); ("spam", 1)]).
  - destruct toy_is_dataset as (_ & H & _). exact H.
  - cbn. auto.
  - cbn. auto.
Defined.

(** ** Priors and labels outside 0 and 1 *)

Lemma filter_disjoint_length {A : Type} (p q : A -> bool) (l : list A) :
  (forall x, p x = true -> q x = false) ->
  (List.length (filter p l) + List.length (filter q l)
   <= List.length l)%nat /\
  ((List.length (filter p l) + List.length (filter q l))%nat
   = List.length l <->
   forall x, In x l -> p x = true \/ q x = true).
Proof.
  intros Hdis. induction l as [|x l [IH1 IH2]].
  - cbn. split; [lia|]. split; [intros _ x []|reflexivity].
  - cbn [filter]. destruct (p x) eqn:Ep, (q x) eqn:Eq;
      try (rewrite (Hdis x Ep) in Eq; discriminate);
      cbn [List.length]; (split; [lia|]).
    + split.
      * intros H y [<-|Hy]; [auto|]. apply IH2; [lia|exact Hy].
      * intros H. assert (forall y, In y l -> p y = true \/ q y = true)
          by (intros; apply H; now right).
        apply IH2 in H0. lia.
    + split.
      * intros H y [<-|Hy]; [auto|]. apply IH2; [lia|exact Hy].
      * intros H. assert (forall y, In y l -> p y = true \/ q y = true)
          by (intros; apply H; now right).
        apply IH2 in H0. lia.
    + split; [lia|].
      intros H. destruct (H x (or_introl eq_refl)); congruence.
Qed.

(** On a non-empty Dataset the two priors are non-negative and sum to at
    most 1, and they sum to exactly 1 if and only if every label is 0 or
    1: a row with any other label is in neither class but still counts in
    the divisor. *)
Theorem train_priors_and_labels (train_data : DataFrame) (alpha : R)
    (label : list R) :
  is_dataset train_data ->
  series_get "spam" train_data = Some label ->
  len train_data <> 0%nat ->
  exists prior_spam prior_non_spam wsp wnsp,
    train train_data alpha = Ok (prior_spam, prior_non_spam, wsp, wnsp) /\
    0 <= prior_spam /\ 0 <= prior_non_spam /\
    prior_spam + prior_non_spam <= 1 /\
    (prior_spam + prior_non_spam = 1 <->
     forall v, In v label -> v = 0 \/ v = 1).
Proof.
  intros Hds Hget Hne.
  destruct (dataset_label train_data Hds) as (label' & Hget' & _ & Hlen & _).
  rewrite Hget in Hget'. injection Hget' as <-.
  do 4 eexists.
  split; [apply (train_on_dataset train_data alpha label); assumption|].
  destruct (filter_disjoint_length
              (fun i => Req_bool (nth i label 0) 1)
              (fun i => Req_bool (nth i label 0) 0)
              (seq 0 (List.length label))) as [Hle Heq].
  { intros i H. apply Req_bool_true in H. apply Req_bool_false. lra. }
  fold (class_rows label 1) in Hle, Heq.
  fold (class_rows label 0) in Hle, Heq.
  rewrite length_seq, Hlen in Hle, Heq.
  set (a := List.length (class_rows label 1)) in *.
  set (b := List.length (class_rows label 0)) in *.
  set (n := len train_data) in *.
  assert (Hn : 0 < INR n) by (apply lt_0_INR; lia).
  assert (Hinv : 0 < / INR n) by now apply Rinv_0_lt_compat.
  assert (Hone : INR n * / INR n = 1) by (apply Rinv_r; lra).
  pose proof (pos_INR a). pose proof (pos_INR b).
  assert (Hsum : INR a / INR n + INR b / INR n = INR (a + b) / INR n).
  { rewrite plus_INR. unfold Rdiv. ring. }
  split; [unfold Rdiv; nra|]. split; [unfold Rdiv; nra|]. split.
  - rewrite Hsum. apply le_INR in Hle. unfold Rdiv. nra.
  - rewrite Hsum. split.
    + intros H1 v Hv.
      assert (Hab : (a + b)%nat = n).
      { apply INR_eq. apply Rmult_eq_reg_r with (/ INR n); [|lra].
        unfold Rdiv in H1. rewrite H1. lra. }
      destruct (In_nth label v 0 Hv) as (i & Hi & <-).
      destruct (proj1 Heq Hab i) as [E|E];
        [apply in_seq; lia | |]; apply Req_bool_true in E; auto.
    + intros Hbin.
      assert (Hab : (a + b)%nat = n).
      { apply Heq. intros i Hi. apply in_seq in Hi.
        destruct (Hbin (nth i label 0)) as [E|E];
          [apply nth_In; lia | |]; rewrite E; [right|left];
          now apply Req_bool_true. }
      rewrite Hab. apply Rdiv_diag. lra.
Qed.

Lemma train_priors_and_labels_witness :
  exists prior_spam prior_non_spam wsp wnsp,
    train toy (9 / 100) = Ok (prior_spam, prior_non_spam, wsp, wnsp) /\
    0 <= prior_spam /\ 0 <= prior_non_spam /\
    prior_spam + prior_non_spam <= 1.
Proof.
  destruct (train_priors_and_labels toy (9 / 100) [1; 0; 1] toy_is_dataset)
    as (ps & pn & wsp & wnsp & Ht & H1 & H2 & H3 & _).
  - reflexivity.
  - cbn. discriminate.
  - exists ps, pn, wsp, wnsp. auto.
Defined.

(** ** C4: the evaluator *)

Lemma filter_map_length {A B : Type} (p : B -> bool) (f : A -> B)
    (l : list A) :
  List.length (filter p (map f l))
  = List.length (filter (fun x => p (f x)) l).
Proof.
  induction l as [|x l IH]; [reflexivity|].
  cbn [map filter]. destruct (p (f x)); cbn [List.length]; now rewrite IH.
Qed.

Lemma filter_map_comm {A B : Type} (p : B -> bool) (f : A -> B)
    (l : list A) :
  filter p (map f l) = map f (filter (fun x => p (f x)) l).
Proof.
  induction l as [|x l IH]; [reflexivity|].
  cbn [map filter]. destruct (p (f x)); cbn [map]; now rewrite IH.
Qed.

Lemma nodup_labels_filter {A : Type} (f : string * A -> bool)
    (s : Series A) :
  NoDup (labels s) -> NoDup (labels (filter f s)).
Proof.
  unfold labels. induction s as [|c s IH]; intros Hnd; [constructor|].
  cbn [map] in Hnd. inversion Hnd as [|? ? Hc Hrest]; subst.
  cbn [filter]. destruct (f c); [|now apply IH].
  cbn [map]. constructor; [|now apply IH].
  intros H. apply Hc. apply in_map_iff in H as [x [Hx Hin]].
  apply filter_In in Hin as [Hin _]. rewrite <- Hx. now apply in_map.
Qed.

Lemma py_truediv_ok (a n : nat) :
  n <> 0%nat -> py_truediv a n = Ok (INR a / INR n).
Proof. intros H. destruct n; [contradiction | reflexivity]. Qed.

Lemma rates_eq {A : Type} (c c' f f' t t' : list A) (n auc : R) :
  c = c' -> f = f' -> t = t' ->
  Ok (INR (List.length c) / n, INR (List.length f) / n,
      INR (List.length t) / n, auc)
  = Ok (INR (List.length c') / n, INR (List.length f') / n,
        INR (List.length t') / n, auc).
Proof. now intros -> -> ->. Qed.

Section EvaluatorContract.

Variable roc_auc_score : list R -> list bool -> result R.
Variables (prior_spam prior_non_spam : R).
Variables (wsp wnsp : Series num).

Lemma row_prediction_at (df : DataFrame) (i : nat) :
  NoDup (columns df) ->
  row_prediction prior_spam prior_non_spam wsp wnsp
    (map (fun c => (fst c, nth i (snd c) 0)) df)
  = predict (email_at df i) prior_spam prior_non_spam wsp wnsp.
Proof.
  intros Hnd. unfold row_prediction, email_at. f_equal.
  rewrite filter_map_comm. cbn [fst].
  rewrite (filter_ext
             (fun x : string * list R => negb (String.eqb "spam" (fst x)))
             (fun c => if string_dec (fst c) "spam" then false else true)).
  - unfold to_dict. rewrite to_dict_from; [reflexivity|]. cbn [app].
    unfold labels. rewrite map_map. cbn [fst].
    now apply (nodup_labels_filter _ df).
  - intros c. destruct (string_dec (fst c) "spam") as [->|Hne].
    + reflexivity.
    + apply negb_true_iff, String.eqb_neq. congruence.
Qed.

Lemma row_label_at (df : DataFrame) (label : list R) (i : nat) :
  series_get "spam" df = Some label ->
  row_label (map (fun c => (fst c, nth i (snd c) 0)) df) = nth i label 0.
Proof.
  intros Hl. unfold row_label.
  now rewrite (series_get_map (fun v => nth i v 0) df "spam"), Hl.
Qed.

(** C4 (as the code has it).  On a non-empty test set with distinct
    column names, its label column and labels 0 or 1, [test] predicts
    every row from the row's feature values and hands the labels and the
    predictions, in row order, to the AUC routine.  If the routine raises,
    [test] raises with it and returns no rate.  If it returns [auc],
    [test] returns [correct / total], [false_positive / total],
    [true_positive / total] and [auc]: [total] is the number of rows,
    [correct] counts the rows whose prediction equals the label,
    [true_positive] those predicted 1 with label 1, [false_positive]
    those predicted 1 with label 0.  Both rates are divided by the number
    of all rows. *)
Theorem test_rates (test_data : DataFrame) (label : list R) :
  NoDup (columns test_data) ->
  series_get "spam" test_data = Some label ->
  len test_data <> 0%nat ->
  (forall v, In v label -> v = 0 \/ v = 1) ->
  let total := len test_data in
  let pred :=
    fun i => predict (email_at test_data i)
                     prior_spam prior_non_spam wsp wnsp in
  let lab := fun i => nth i label 0 in
  test roc_auc_score prior_spam prior_non_spam wsp wnsp test_data =
    (auc <- roc_auc_score (map lab (seq 0 total)) (map pred (seq 0 total)) ;;
     Ok (INR (count_index
                (fun i => Req_bool (bool_to_R (pred i)) (lab i)) total)
         / INR total,
         INR (count_index (fun i => pred i && Req_bool (lab i) 0) total)
         / INR total,
         INR (count_index (fun i => pred i && Req_bool (lab i) 1) total)
         / INR total,
         auc)).
Proof.
  intros Hnd Hl Hne Hbin total pred lab.
  rewrite (test_labelled roc_auc_score prior_spam prior_non_spam wsp wnsp
             test_data label Hl).
  unfold count_rows, iterrows. fold total.
  rewrite !map_map, !filter_map_length.
  rewrite (map_ext _ lab) by (intros i; now apply row_label_at).
  rewrite (map_ext _ pred) by (intros i; now apply row_prediction_at).
  destruct (roc_auc_score _ _) as [auc|e]; cbn [bind]; [|reflexivity].
  fold total. rewrite !(py_truediv_ok _ total) by exact Hne. cbn [bind].
  assert (Hlab : forall i, lab i = 0 \/ lab i = 1).
  { intros i. unfold lab.
    destruct (Nat.lt_ge_cases i (List.length label)).
    - apply Hbin. now apply nth_In.
    - left. now apply nth_overflow. }
  assert (Hc : forall i,
            is_correct prior_spam prior_non_spam wsp wnsp
              (map (fun c => (fst c, nth i (snd c) 0)) test_data)
            = Req_bool (bool_to_R (pred i)) (lab i)).
  { intros i. unfold is_correct.
    now rewrite row_prediction_at, (row_label_at test_data label i Hl). }
  unfold count_index. apply rates_eq; apply filter_ext; intros i;
    rewrite ?Hc, ?row_prediction_at by exact Hnd; fold (pred i).
  - reflexivity.
  - destruct (pred i); cbn [andb negb bool_to_R]; [|reflexivity].
    destruct (Hlab i) as [-> | ->]; unfold Req_bool; decide_R; reflexivity.
  - destruct (pred i); cbn [andb bool_to_R]; [|reflexivity].
    unfold Req_bool.
    destruct (Req_dec_T 1 (lab i)), (Req_dec_T (lab i) 1); congruence.
Qed.

End EvaluatorContract.

Lemma test_rates_witness :
  test roc_auc_hard 1 0 [] [] toy =
    (auc <- roc_auc_hard
              (map (fun i => nth i [1; 0; 1] 0) (seq 0 (len toy)))
              (map (fun i => predict (email_at toy i) 1 0 [] [])
                   (seq 0 (len toy))) ;;
     Ok (INR (count_index
                (fun i => Req_bool
                            (bool_to_R (predict (email_at toy i) 1 0 [] []))
                            (nth i [1; 0; 1] 0)) (len toy))
         / INR (len toy),
         INR (count_index
                (fun i => predict (email_at toy i) 1 0 [] []
                          && Req_bool (nth i [1; 0; 1] 0) 0) (len toy))
         / INR (len toy),
         INR (count_index
                (fun i => predict (email_at toy i) 1 0 [] []
                          && Req_bool (nth i [1; 0; 1] 0) 1) (len toy))
         / INR (len toy),
         auc)).
Proof.
  apply (test_rates roc_auc_hard 1 0 [] [] toy [1; 0; 1]).
  - destruct toy_is_dataset as (_ & H & _). exact H.
  - reflexivity.
  - cbn. discriminate.
  - intros v [<-|[<-|[<-|[]]]]; auto.
Defined.

(** C4, the claim as written fails: [all_spam_fold] is a non-empty test
    set with labels 0 or 1, but of one class only; the AUC routine raises
    on it before the rates are computed, and [test] returns none. *)
Lemma test_one_class_raises :
  len all_spam_fold = 2%nat /\
  series_get "spam" all_spam_fold = Some [1; 1] /\
  forall prior_spam prior_non_spam wsp wnsp,
    test roc_auc_hard prior_spam prior_non_spam wsp wnsp all_spam_fold
    = Raise ValueError.
Proof.
  split; [reflexivity|]. split; [reflexivity|].
  intros ps pn wsp wnsp.
  rewrite (test_labelled roc_auc_hard ps pn wsp wnsp all_spam_fold [1; 1]
             eq_refl).
  unfold iterrows, all_spam_fold.
  cbn [len List.length seq map fst snd nth].
  unfold row_label.
  cbn [series_get String.eqb Ascii.eqb Bool.eqb].
  unfold roc_auc_hard. cbn [combine filter fst].
  unfold Req_bool. decide_R. reflexivity.
Qed.
